(** * klim-searcher: the Flask backend [app.py]

    A shallow embedding of [app.py] (the sentiment classifier, the
    [/api/news] and [/api/download-selected] handlers and the index route)
    and the properties its specification states about them.

    Conventions of the embedding.
    - Python [str] is [string] (UTF-8 bytes, so the Chinese literals of the
      source are kept as they are written there).
    - Python [dict]s with string keys are [gmap string _]; the [Counter] and
      the [stats] dictionary, whose iteration order matters, are association
      lists in insertion order.
    - A sentiment score is a rational number: every finite Python float is
      one and comparisons between floats are exact.  The literals [0.65]
      and [0.35] of the source are the doubles Python makes of them, taken
      at their exact value ([float_0_65], [float_0_35]).  Module [Binary64]
      repeats the classifier on IEEE-754 values, NaN and the infinities
      included.
    - Exceptions are values of type [exn]; code that may raise lives in the
      monad [M], which also records the calls made to the collaborators
      ([fetch_rss_news], [SnowNLP], pandas) and to [print].
    - The clock, the file system and the collaborators are inputs. *)

From Stdlib Require Import QArith Lqa Ascii.
From Stdlib Require Import Floats.SpecFloat.
From stdpp Require Import gmap strings list fin_maps sorting.

Set Default Proof Using "Type".
#[local] Set Warnings "-clear-no-such-hyp".
Open Scope string_scope.

(* ===================================================================== *)
(** * Part I: the program                                                 *)
(* ===================================================================== *)

(** ** Sentiment classifier *)

(** The three classes, and the label [classify_sentiment] returns for each
    (its docstring: 情感分類 ('正面', '中性', '負面')). *)
Inductive sentiment := Positive | Neutral | Negative.

Definition label (c : sentiment) : string :=
  match c with
  | Positive => "正面"
  | Neutral => "中性"
  | Negative => "負面"
  end.

(** [x > y] and [x < y] on rationals. *)
Definition Qgtb (x y : Q) : bool := negb (Qle_bool x y).
Definition Qltb (x y : Q) : bool := negb (Qle_bool y x).

(** The float the literal [0.65] denotes: the double nearest to 65/100,
    [float.hex(0.65) = '0x1.4cccccccccccdp-1'], which is
    5854679515581645 / 2^53 and lies just above 65/100. *)
Definition float_0_65 : Q := 5854679515581645 # 9007199254740992.

(** The float the literal [0.35] denotes: the double nearest to 35/100,
    [float.hex(0.35) = '0x1.6666666666666p-2'], which is
    6305039478318694 / 2^54 = 3152519739159347 / 2^53 and lies just below
    35/100. *)
Definition float_0_35 : Q := 3152519739159347 # 9007199254740992.

Definition classify_sentiment (score : Q) : string :=
  if Qgtb score float_0_65 then "正面"
  else if Qltb score float_0_35 then "負面"
  else "中性".

(** The same function on IEEE-754 binary64 values.  [S754_nan] and the
    infinities are inputs like any other; a comparison with NaN is false. *)
Module Binary64.

(** [float.fromhex('0x1.4cccccccccccdp-1')], the double of [0.65]. *)
Definition lit_0_65 : spec_float := S754_finite false 5854679515581645 (-53).
(** [float.fromhex('0x1.6666666666666p-2')], the double of [0.35]. *)
Definition lit_0_35 : spec_float := S754_finite false 6305039478318694 (-54).

Definition gt (x y : spec_float) : bool := SFltb y x.
Definition lt (x y : spec_float) : bool := SFltb x y.

Definition classify_sentiment (score : spec_float) : string :=
  if gt score lit_0_65 then "正面"
  else if lt score lit_0_35 then "負面"
  else "中性".

End Binary64.

(** ** Python values, exceptions and effects *)

(** The exceptions the handlers can see.  [Raised] is an exception coming
    out of a collaborator or a library call, with its message. *)
Inductive exn :=
| KeyError (key : string)
| OverflowError (msg : string)
| Raised (msg : string).

(** [str(e)]; the message of a [KeyError] is the [repr] of the key. *)
Definition str (e : exn) : string :=
  match e with
  | KeyError key => "'" ++ key ++ "'"
  | OverflowError msg => msg
  | Raised msg => msg
  end.

(** A value decoded from a JSON request body ([None] is [JNull]). *)
#[local] Unset Elimination Schemes.
Inductive json :=
| JNull
| JBool (b : bool)
| JInt (n : Z)
| JFloat (x : Q)
| JStr (s : string)
| JArr (items : list json)
| JObj (members : list (string * json)).
#[local] Set Elimination Schemes.

(** Truth value of an object, as [not v] and [if v:] test it. *)
Definition truthy (v : json) : bool :=
  match v with
  | JNull => false
  | JBool b => b
  | JInt n => negb (n =? 0)%Z
  | JFloat x => negb (Qeq_bool x 0)
  | JStr s => negb (String.eqb s "")
  | JArr items => match items with [] => false | _ => true end
  | JObj members => match members with [] => false | _ => true end
  end.

(** [isinstance(v, list)]. *)
Definition isinstance_list (v : json) : bool :=
  match v with JArr _ => true | _ => false end.

(** Truth value of [request.args.get(name)]: [None] and [""] are false. *)
Definition truthy_str (o : option string) : bool :=
  match o with
  | Some s => negb (String.eqb s "")
  | None => false
  end.

(** *** Calendar: [datetime.date], [datetime.datetime], [timedelta] *)

(** A [date] is identified with its proleptic Gregorian ordinal
    ([date.toordinal()]): 0001-01-01 is day 1, 9999-12-31 is the last. *)
Record date := Date { toordinal : Z }.

Record timedelta := Timedelta { days : Z }.

Record datetime := Datetime {
  year : Z; month : Z; day : Z;
  hour : Z; minute : Z; second : Z
}.

Definition MAXORDINAL : Z := 3652059.

Definition is_leap (y : Z) : bool :=
  ((y mod 4 =? 0) && (negb (y mod 100 =? 0) || (y mod 400 =? 0)))%Z.

Definition days_before_year (y : Z) : Z :=
  let y := (y - 1)%Z in (y * 365 + y / 4 - y / 100 + y / 400)%Z.

(** Indexed by the month, from 1; the entry 0 is a placeholder. *)
Definition DAYS_BEFORE_MONTH : list Z :=
  [-1; 0; 31; 59; 90; 120; 151; 181; 212; 243; 273; 304; 334]%Z.

Definition days_before_month (y m : Z) : Z :=
  (nth (Z.to_nat m) DAYS_BEFORE_MONTH 0
   + (if (2 <? m) && is_leap y then 1 else 0))%Z.

Definition ymd2ord (y m d : Z) : Z :=
  (days_before_year y + days_before_month y m + d)%Z.

(** [dt.date()]. *)
Definition date_of (dt : datetime) : date :=
  Date (ymd2ord (year dt) (month dt) (day dt)).

(** [d - delta]: the date [delta.days] earlier, [OverflowError] outside
    0001-01-01 .. 9999-12-31. *)
Definition date_sub (d : date) (delta : timedelta) : exn + date :=
  let o := (toordinal d - days delta)%Z in
  if ((0 <? o) && (o <=? MAXORDINAL))%Z then inr (Date o)
  else inl (OverflowError "date value out of range").

Definition digit (n : Z) : ascii :=
  ascii_of_nat (48 + Z.to_nat (n mod 10)).

(** Decimal rendering on a fixed number of digits, most significant first. *)
Fixpoint zfill (width : nat) (n : Z) : string :=
  match width with
  | O => ""
  | S w => zfill w (n / 10) ++ String (digit n) ""
  end.

(** [int(s)] for a string of decimal digits. *)
Definition digit_value (c : ascii) : Z := (Z.of_nat (nat_of_ascii c) - 48)%Z.

Fixpoint int_of_digits (acc : Z) (s : string) : Z :=
  match s with
  | "" => acc
  | String c s' => int_of_digits (10 * acc + digit_value c) s'
  end.

Definition int (s : string) : Z := int_of_digits 0 s.

(** [dt.strftime('%Y%m%d')], for the years 1000 to 9999. *)
Definition strftime_Ymd (dt : datetime) : string :=
  zfill 4 (year dt) ++ zfill 2 (month dt) ++ zfill 2 (day dt).

(** *** The effect monad *)

(** An article of the fetcher: a dictionary with string fields. *)
Abbreviation article := (gmap string string).

(** What a handler does to the outside: the calls to its collaborators,
    with their arguments, and the lines it prints. *)
Inductive event :=
| Call_fetch_rss_news (keyword : string) (start_date end_date : date)
                      (logic : string)
| Call_SnowNLP (text : string)
| Call_to_excel (rows : json) (sheet_name : string)
| Print (line : string).

Definition trace := list event.

(** A computation that appends to the trace and returns or raises. *)
Definition M (A : Type) : Type := trace -> (exn + A) * trace.

#[export] Instance M_ret : MRet M := fun A x t => (inr x, t).

#[export] Instance M_bind : MBind M := fun A B f m t =>
  match m t with
  | (inr x, t') => f x t'
  | (inl e, t') => (inl e, t')
  end.

(** A value or an exception that needs no effect. *)
Definition lift {A} (r : exn + A) : M A := fun t => (r, t).

Definition raise {A} (e : exn) : M A := lift (inl e).

(** Perform an observable call whose outcome is [r]. *)
Definition call {A} (ev : event) (r : exn + A) : M A :=
  fun t => (r, (t ++ [ev])%list).

Definition print (line : string) : M unit := call (Print line) (inr tt).

(** [try: body except Exception as e: handler(e)]. *)
Definition try_except {A} (body : M A) (handler : exn -> M A) : M A :=
  fun t =>
    match body t with
    | (inr x, t') => (inr x, t')
    | (inl e, t') => handler e t'
    end.

(** [for x in xs: ...] collecting the results; stops at the first raise. *)
Fixpoint for_each {A B} (f : A -> M B) (xs : list A) : M (list B) :=
  match xs with
  | [] => mret []
  | x :: xs' => y ← f x; ys ← for_each f xs'; mret (y :: ys)
  end.

(** [d[key]]. *)
Definition getitem (d : gmap string string) (key : string) : M string :=
  match d !! key with
  | Some v => mret v
  | None => raise (KeyError key)
  end.

(** *** [collections.Counter] *)

(** A [Counter] is a dictionary from elements to counts; its items come in
    the order in which the keys were first inserted. *)
Definition counter := list (string * nat).

(** [c[elem] = c.get(elem, 0) + 1]: an existing key keeps its position, a
    new key goes to the end. *)
Fixpoint counter_incr (elem : string) (c : counter) : counter :=
  match c with
  | [] => [(elem, 1%nat)]
  | (k, n) :: c' =>
      if decide (k = elem) then (k, S n) :: c'
      else (k, n) :: counter_incr elem c'
  end.

(** [Counter(iterable)]. *)
Definition Counter (iterable : list string) : counter :=
  fold_left (fun c elem => counter_incr elem c) iterable [].

(** One step of a stable sort by decreasing count: [x], which came before
    every entry of [l], goes in front of the first entry whose count is not
    larger than its own. *)
Fixpoint insert_by_count (x : string * nat) (l : counter) : counter :=
  match l with
  | [] => [x]
  | y :: l' =>
      if (y.2 <=? x.2)%nat then x :: y :: l'
      else y :: insert_by_count x l'
  end.

(** [sorted(items, key=itemgetter(1), reverse=True)].  Python's sort is
    stable, also under [reverse=True], and a stable sort has one result. *)
Definition sorted_by_count_reverse (items : counter) : counter :=
  foldr insert_by_count [] items.

(** [c.most_common()]. *)
Definition most_common (c : counter) : counter := sorted_by_count_reverse c.

(** [sum(stats.values())]. *)
Definition sum_values (stats : counter) : nat := sum_list_with snd stats.

(** ** The Flask application *)

(** What a handler reads from a request: the query parameters and the
    outcome of [request.get_json()], which belongs to the framework: the
    decoded body, or the exception Flask raises when the request has no
    body that decodes as JSON. *)
Record request := Request {
  args : gmap string string;
  get_json : exn + json
}.

(** The machine the server runs on: its clock and its file system. *)
Record world := World {
  now : datetime;
  path_exists : string -> bool
}.

(** [date.today()]. *)
Definition today (w : world) : date := date_of (now w).

(** The dictionaries given to [jsonify]. *)
Inductive body :=
| NewsBody (success : bool) (count : nat) (data : list article)
           (stats : counter)
| ErrorBody (success : bool) (error : string).

(** What a view returns: [jsonify(...)] with its status (200 when the view
    gives none), a string with a status, or the outcome of one of Flask's
    file helpers. *)
Inductive response :=
| jsonify (b : body) (status : Z)
| str_response (text : string) (status : Z)
| send_file (output : list Byte.byte) (mimetype : string)
            (as_attachment : bool) (download_name : string)
| send_from_directory (directory : string) (path : string).

(** The status of a response the application builds itself; a [send_file]
    response is a 200, what [send_from_directory] answers is up to Flask. *)
Definition status_code (r : response) : option Z :=
  match r with
  | jsonify _ status => Some status
  | str_response _ status => Some status
  | send_file _ _ _ _ => Some 200%Z
  | send_from_directory _ _ => None
  end.

(** [os.path.join(a, b)] for a relative [b], POSIX. *)
Definition path_join (a b : string) : string :=
  if String.eqb a "" then b
  else if String.eqb (String.substring (String.length a - 1) 1 a) "/"
  then a ++ b
  else a ++ "/" ++ b.

Definition XLSX_MIMETYPE : string :=
  "application/vnd.openxmlformats-officedocument.spreadsheetml.sheet".

Section app.

(** [multithread_fetcher.fetch_rss_news(keyword, start_date, end_date,
    logic)]. *)
Context (fetch_rss_news :
           string -> date -> date -> string -> exn + list article).
(** [SnowNLP(text).sentiments]. *)
Context (sentiments : string -> exn + Q).
(** [datetime.strptime(text, format)]. *)
Context (strptime : string -> string -> exn + datetime).
(** [pd.DataFrame(rows).to_excel(output, index=False, sheet_name=...,
    engine="xlsxwriter")], giving the bytes written to [output]. *)
Context (to_excel : json -> string -> exn + list Byte.byte).
(** [os.path.dirname(os.path.abspath(__file__))]. *)
Context (app_dir : string).

Definition DIST_FOLDER : string :=
  path_join (path_join app_dir "frontend") "dist".

(** The body of the loop of [get_news]: score the title, store the label
    in the article. *)
Definition annotate (item : article) : M article :=
  title ← getitem item "標題";
  sentiment_score ← call (Call_SnowNLP title) (sentiments title);
  mret (<["情感" := classify_sentiment sentiment_score]> item).

(** Step 2 of [get_news]: the date range of the query.  (In the first
    branch both parameters are strings.) *)
Definition date_range (w : world)
    (start_date_str end_date_str : option string) : M (date * date) :=
  if truthy_str start_date_str && truthy_str end_date_str then
    s ← lift (strptime (default "" start_date_str) "%Y-%m-%d");
    e ← lift (strptime (default "" end_date_str) "%Y-%m-%d");
    mret (date_of s, date_of e)
  else
    let end_date := today w in
    start_date ← lift (date_sub end_date (Timedelta 7));
    mret (start_date, end_date).

Definition get_news (w : world) (request : request) : M response :=
  try_except
    (let keyword := default "台灣" (args request !! "keyword") in
     let logic := default "OR" (args request !! "logic") in
     let start_date_str := args request !! "start_date" in
     let end_date_str := args request !! "end_date" in
     '(start_date, end_date) ← date_range w start_date_str end_date_str;
     news_list ← call (Call_fetch_rss_news keyword start_date end_date logic)
                      (fetch_rss_news keyword start_date end_date logic);
     news_list ← (if bool_decide (news_list ≠ [])
                  then for_each annotate news_list
                  else mret news_list);
     stats ← (if bool_decide (news_list ≠ []) then
                sources ← for_each (fun item => getitem item "來源")
                                   news_list;
                mret (most_common (Counter sources))
              else mret []);
     mret (jsonify (NewsBody true (length news_list) news_list stats) 200))
    (fun e =>
       print ("API 錯誤: " ++ str e);;
       mret (jsonify (ErrorBody false (str e)) 500)).

(** The route [/api/news] serving one request after the other, each with
    the clock and the file system as they are when it is served. *)
Definition serve_news (requests : list (world * request))
    : M (list response) :=
  for_each (fun r => get_news r.1 r.2) requests.

Definition download_selected (w : world) (request : request) : M response :=
  try_except
    (selected_news ← lift (get_json request);
     if negb (truthy selected_news) || negb (isinstance_list selected_news)
     then
       mret (jsonify (ErrorBody false "沒有提供選中的新聞或格式錯誤") 400)
     else
       output ← call (Call_to_excel selected_news "Selected News")
                     (to_excel selected_news "Selected News");
       mret (send_file output XLSX_MIMETYPE true
               ("selected_news_" ++ strftime_Ymd (now w) ++ ".xlsx")))
    (fun e =>
       print ("下載選中新聞時發生錯誤: " ++ str e);;
       mret (jsonify (ErrorBody false (str e)) 500)).

Definition index (w : world) : response :=
  if negb (path_exists w DIST_FOLDER) then
    str_response
      "前端檔案尚未建置 (frontend/dist not found)。請在 'frontend' 目錄下執行 'npm run build'。"
      404
  else send_from_directory DIST_FOLDER "index.html".

End app.

(** ** Observations on traces and responses *)

(** The argument tuples of the calls to [fetch_rss_news] in a trace. *)
Definition fetch_calls (t : trace) : list (string * date * date * string) :=
  omap (fun ev =>
          match ev with
          | Call_fetch_rss_news keyword start_date end_date logic =>
              Some (keyword, start_date, end_date, logic)
          | _ => None
          end) t.

(** Position of the first occurrence of [x] in [l]. *)
Fixpoint first_index (x : string) (l : list string) : option nat :=
  match l with
  | [] => None
  | y :: l' => if decide (y = x) then Some 0%nat else S <$> first_index x l'
  end.

(** The order [most_common] sorts by: counts do not increase. *)
Definition count_ge (a b : string * nat) : Prop := (b.2 <= a.2)%nat.

(** [a] stands somewhere before [b] in [l]. *)
Definition precedes {A} (a b : A) (l : list A) : Prop :=
  exists l1 l2 l3, l = (l1 ++ a :: l2 ++ b :: l3)%list.

(** Number of occurrences of [x] in [l]. *)
Definition occurrences (x : string) (l : list string) : nat :=
  length (filter (fun y => y = x) l).

(** [c[key]]: the count of a key, 0 when the key is missing. *)
Fixpoint counter_get (key : string) (c : counter) : nat :=
  match c with
  | [] => 0%nat
  | (k, n) :: c' => if decide (k = key) then n else counter_get key c'
  end.

(** The [來源] fields of a list of articles. *)
Definition sources_of (news_list : list article) : list string :=
  omap (fun item : article => item !! "來源") news_list.

(** [item'] is [item] after the loop body of [get_news]: its title was
    scored and the label of the score stored under [情感]. *)
Definition annotated (sentiments : string -> exn + Q) (item item' : article)
    : Prop :=
  exists title score,
    item !! "標題" = Some title /\ sentiments title = inr score /\
    item' = <["情感" := classify_sentiment score]> item.

(** What [get_news] answers when its [try] block raised [e] at trace [t]:
    the [except] clause prints and builds the error object. *)
Definition get_news_failed (e : exn) (t : trace) : (exn + response) * trace :=
  (inr (jsonify (ErrorBody false (str e)) 500),
   (t ++ [Print ("API 錯誤: " ++ str e)])%list).

(** The same for [download_selected]. *)
Definition download_selected_failed (e : exn) (t : trace)
    : (exn + response) * trace :=
  (inr (jsonify (ErrorBody false (str e)) 500),
   (t ++ [Print ("下載選中新聞時發生錯誤: " ++ str e)])%list).

(** The name under which the export is sent at time [dt]. *)
Definition export_name (dt : datetime) : string :=
  "selected_news_" ++ strftime_Ymd dt ++ ".xlsx".

(** ** A sample deployment

    Concrete collaborators, clocks and requests, on which the handlers can
    be run. *)
Module Sample.

Definition news (source title : string) : article :=
  <["來源" := source]> (<["標題" := title]> ∅).

Definition fetch_rss_news (keyword : string) (start_date end_date : date)
    (logic : string) : exn + list article :=
  inr [news "CNA" "good news"; news "BBC" "storm"; news "BBC" "calm";
       news "CNA" "quake"; news "PTS" "rain"].

(** A fetcher whose second article has a title that cannot be scored. *)
Definition fetch_rss_news_untitled (keyword : string)
    (start_date end_date : date) (logic : string) : exn + list article :=
  inr [news "CNA" "good news"; news "BBC" ""; news "PTS" "rain"].

Definition sentiments (text : string) : exn + Q :=
  if String.eqb text "" then inl (Raised "float division by zero")
  else if String.eqb text "good news" then inr (9 # 10)
  else if String.eqb text "storm" then inr (1 # 10)
  else inr (1 # 2).

Definition strptime (text format : string) : exn + datetime :=
  inl (Raised "time data does not match format").

Definition to_excel (rows : json) (sheet_name : string)
    : exn + list Byte.byte :=
  inr [Byte.x50; Byte.x4b].

Definition app_dir : string := "/srv/klim-searcher".

(** 5 March 2024, before the frontend is built; the day after, built. *)
Definition w : world :=
  World (Datetime 2024 3 5 10 30 0) (fun _ => false).
Definition w_next : world :=
  World (Datetime 2024 3 6 8 0 0) (fun _ => true).

Definition req_empty : request := Request ∅ (inr JNull).

Definition req_start_only : request :=
  Request (<["start_date" := "2024-01-01"]>
             (<["keyword" := "地震"]> (<["logic" := "AND"]> ∅)))
          (inr (JArr [])).

Definition req_rows : request :=
  Request ∅ (inr (JArr [JObj [("title", JStr "A"); ("source", JStr "X")]])).

(** The articles of [fetch_rss_news] as [get_news] returns them. *)
Definition data : list article :=
  [<["情感" := "正面"]> (news "CNA" "good news");
   <["情感" := "負面"]> (news "BBC" "storm");
   <["情感" := "中性"]> (news "BBC" "calm");
   <["情感" := "中性"]> (news "CNA" "quake");
   <["情感" := "中性"]> (news "PTS" "rain")].

Definition stats : counter := [("CNA", 2); ("BBC", 2); ("PTS", 1)]%nat.

(** What [get_news] does on the way, on 5 March 2024. *)
Definition calls : trace :=
  [Call_fetch_rss_news "台灣" (Date 738943) (Date 738950) "OR";
   Call_SnowNLP "good news"; Call_SnowNLP "storm"; Call_SnowNLP "calm";
   Call_SnowNLP "quake"; Call_SnowNLP "rain"].

End Sample.

(** ** Further observations *)

(** The titles given to [SnowNLP] in a trace, in the order of the calls. *)
Definition scored_titles (t : trace) : list string :=
  omap (fun ev => match ev with Call_SnowNLP text => Some text | _ => None end)
       t.

(** The lines printed in a trace. *)
Definition printed (t : trace) : list string :=
  omap (fun ev => match ev with Print line => Some line | _ => None end) t.

(** The [標題] fields of a list of articles. *)
Definition titles_of (news_list : list article) : list string :=
  omap (fun item : article => item !! "標題") news_list.

(** An article whose title is there and can be scored. *)
Definition scorable (sentiments : string -> exn + Q) (item : article)
    : Prop :=
  exists title score,
    item !! "標題" = Some title /\ sentiments title = inr score.

(** The classes from the most negative to the most positive. *)
Definition rank (c : sentiment) : Z :=
  match c with
  | Negative => 0
  | Neutral => 1
  | Positive => 2
  end.

(** A body that [download_selected] accepts: a list with an element. *)
Definition nonempty_list (v : json) : Prop :=
  exists rows, v = JArr rows /\ rows <> [].

(** Requests and collaborators for the failure paths of the handlers. *)
Module Cases.

Definition strptime (text format : string) : exn + datetime :=
  if String.eqb text "2024-01-01" then inr (Datetime 2024 1 1 0 0 0)
  else if String.eqb text "2024-01-31" then inr (Datetime 2024 1 31 0 0 0)
  else inl (Raised ("time data '" ++ text ++
                    "' does not match format '%Y-%m-%d'")).

Definition req_january : request :=
  Request (<["start_date" := "2024-01-01"]>
             (<["end_date" := "2024-01-31"]>
                (<["keyword" := ""]> (<["logic" := "XOR"]> ∅))))
          (inr JNull).

Definition req_bad_date : request :=
  Request (<["start_date" := "2024-01-01"]>
             (<["end_date" := "31/01/2024"]> ∅))
          (inr JNull).

Definition req_blank_dates : request :=
  Request (<["start_date" := ""]> (<["end_date" := "2024-01-31"]> ∅))
          (inr JNull).

Definition fetch_down (keyword : string) (start_date end_date : date)
    (logic : string) : exn + list article :=
  inl (Raised "HTTP Error 503").

Definition fetch_nothing (keyword : string) (start_date end_date : date)
    (logic : string) : exn + list article :=
  inr [].

(** The second article has no title, the third no source. *)
Definition fetch_no_title (keyword : string) (start_date end_date : date)
    (logic : string) : exn + list article :=
  inr [Sample.news "CNA" "good news"; <["來源" := "BBC"]> ∅;
       Sample.news "PTS" "rain"].

Definition fetch_no_source (keyword : string) (start_date end_date : date)
    (logic : string) : exn + list article :=
  inr [Sample.news "CNA" "good news"; <["標題" := "storm"]> ∅].

Definition to_excel_fails (rows : json) (sheet_name : string)
    : exn + list Byte.byte :=
  inl (Raised "No module named 'xlsxwriter'").

Definition req_no_json : request :=
  Request ∅ (inl (Raised "400 Bad Request")).

End Cases.

(* ===================================================================== *)
(** * Part II: properties                                                 *)
(* ===================================================================== *)

(** ** The classifier *)

Lemma Qgtb_spec (x y : Q) : Qgtb x y = true <-> (y < x)%Q.
Proof.
  unfold Qgtb. rewrite negb_true_iff, <- not_true_iff_false, Qle_bool_iff.
  split; [apply Qnot_le_lt | apply Qlt_not_le].
Qed.

Lemma Qltb_spec (x y : Q) : Qltb x y = true <-> (x < y)%Q.
Proof. apply Qgtb_spec. Qed.

Lemma label_inj (c d : sentiment) : label c = label d -> c = d.
Proof. destruct c, d; simpl; intros H; try reflexivity; discriminate H. Qed.

(** The classifier, as a function into the three classes. *)
Lemma classify_sentiment_cases (s : Q) :
  (float_0_65 < s)%Q /\ classify_sentiment s = label Positive \/
  (s < float_0_35)%Q /\ classify_sentiment s = label Negative \/
  (float_0_35 <= s <= float_0_65)%Q /\ classify_sentiment s = label Neutral.
Proof.
  unfold classify_sentiment.
  destruct (Qgtb s float_0_65) eqn:Hhi.
  { left. split; [by apply Qgtb_spec | done]. }
  destruct (Qltb s float_0_35) eqn:Hlo.
  { right; left. split; [by apply Qltb_spec | done]. }
  right; right. split; [|done]. split.
  - apply Qnot_lt_le. intros H. apply Qltb_spec in H. congruence.
  - apply Qnot_lt_le. intros H. apply Qgtb_spec in H. congruence.
Qed.

Lemma float_literals_in_unit :
  (0 < float_0_35)%Q /\ (float_0_35 < float_0_65)%Q /\ (float_0_65 < 1)%Q.
Proof. by split_and!. Qed.

(** Where the two floats lie: each within 2^-54 of its decimal, 0.65 above
    and 0.35 below. *)
Lemma float_literals_near_decimals :
  (65 # 100 < float_0_65)%Q /\
  (float_0_65 - (65 # 100) < 1 # 18014398509481984)%Q /\
  (float_0_35 < 35 # 100)%Q /\
  ((35 # 100) - float_0_35 < 1 # 18014398509481984)%Q.
Proof. unfold float_0_65, float_0_35. split_and!; lra. Qed.

(** On floats the two readings of a threshold decide alike, but for the
    literal itself: of the multiples of 2^-53 (every double from 1/2 on is
    one) those above 65/100 are [float_0_65] and those above it, and of the
    multiples of 2^-54 (every double from 1/4 on is one) those below 35/100
    are [float_0_35] and those below it. *)
Lemma decimal_thresholds_on_floats (k : Z) :
  ((65 # 100 < k # 9007199254740992)%Q <->
   (float_0_65 <= k # 9007199254740992)%Q) /\
  ((k # 18014398509481984 < 35 # 100)%Q <->
   (k # 18014398509481984 <= float_0_35)%Q).
Proof.
  unfold float_0_65, float_0_35, Qlt, Qle. simpl. lia.
Qed.

(** C1: for every score [s] the classifier returns the positive label iff
    [s > 0.65], the negative label iff [s < 0.35], and the neutral label in
    every other case, where 0.65 and 0.35 are the floats the source
    compares with; the two boundary scores 0.65 and 0.35 are neutral. *)
Theorem classify_sentiment_spec (s : Q) :
  (classify_sentiment s = label Positive <-> (float_0_65 < s)%Q) /\
  (classify_sentiment s = label Negative <-> (s < float_0_35)%Q) /\
  (classify_sentiment s = label Neutral <->
     ~ (float_0_65 < s)%Q /\ ~ (s < float_0_35)%Q) /\
  classify_sentiment float_0_65 = label Neutral /\
  classify_sentiment float_0_35 = label Neutral.
Proof.
  pose proof float_literals_in_unit as (_ & Hgap & _).
  destruct (classify_sentiment_cases s) as [[H ->]|[[H ->]|[[H1 H2] ->]]];
    repeat split; try done; try (intros; exfalso; lra); try lra.
Qed.

(** C10: the classifier is defined on every score, inside [0, 1] or not:
    it returns one of the three labels, each of the three is returned for
    some score, every score above 1 is positive and every score below 0 is
    negative. *)
Theorem classify_sentiment_total (s : Q) :
  (exists c, classify_sentiment s = label c) /\
  (forall c, exists s', classify_sentiment s' = label c) /\
  ((1 < s)%Q -> classify_sentiment s = label Positive) /\
  ((s < 0)%Q -> classify_sentiment s = label Negative).
Proof.
  split_and!.
  - destruct (classify_sentiment_cases s) as [[_ ->]|[[_ ->]|[_ ->]]];
      by eexists.
  - intros [].
    + by exists 1%Q.
    + by exists (1 # 2)%Q.
    + by exists 0%Q.
  - intros Hs. pose proof float_literals_in_unit as (H0 & H1 & H2).
    destruct (classify_sentiment_cases s) as [[_ ->]|[[H _]|[[_ H] _]]];
      [done|exfalso; lra..].
  - intros Hs. pose proof float_literals_in_unit as (H0 & H1 & H2).
    destruct (classify_sentiment_cases s) as [[H _]|[[_ ->]|[[H _] _]]];
      [exfalso; lra|done|exfalso; lra].
Qed.

(** On doubles the same three cases, with the comparisons of IEEE-754: a
    score is positive iff it is greater than the double [0.65], negative
    iff it is less than the double [0.35], neutral otherwise, and this
    covers the infinities and NaN. *)
Lemma Binary64_classify_sentiment_spec (s : spec_float) :
  (Binary64.classify_sentiment s = label Positive <->
     Binary64.gt s Binary64.lit_0_65 = true) /\
  (Binary64.classify_sentiment s = label Negative <->
     Binary64.lt s Binary64.lit_0_35 = true) /\
  (Binary64.classify_sentiment s = label Neutral <->
     Binary64.gt s Binary64.lit_0_65 = false /\
     Binary64.lt s Binary64.lit_0_35 = false).
Proof.
  assert (Hgap : Binary64.lt s Binary64.lit_0_35 = true ->
                 Binary64.gt s Binary64.lit_0_65 = false).
  { unfold Binary64.lt, Binary64.gt, SFltb, SFcompare,
      Binary64.lit_0_35, Binary64.lit_0_65.
    destruct s as [sg|sg| |sg m e];
      [by destruct sg|by destruct sg|done|].
    destruct sg; [done|].
    destruct (Z.compare_spec e (-54)), (Z.compare_spec (-53) e);
      try done; lia. }
  unfold Binary64.classify_sentiment.
  destruct (Binary64.gt s Binary64.lit_0_65) eqn:Hhi.
  - split_and!; split; try done.
    + intros Hlo. apply Hgap in Hlo. congruence.
    + by intros [? _].
  - destruct (Binary64.lt s Binary64.lit_0_35) eqn:Hlo.
    + split_and!; split; try done. by intros [_ ?].
    + split_and!; split; done.
Qed.

Example Binary64_classify_sentiment_examples :
  Binary64.classify_sentiment Binary64.lit_0_65 = label Neutral /\
  Binary64.classify_sentiment Binary64.lit_0_35 = label Neutral /\
  Binary64.classify_sentiment S754_nan = label Neutral /\
  Binary64.classify_sentiment (S754_infinity false) = label Positive /\
  Binary64.classify_sentiment (S754_infinity true) = label Negative /\
  Binary64.classify_sentiment (S754_zero false) = label Negative.
Proof. by vm_compute. Qed.

(** ** Strings *)

Lemma string_app_assoc (s1 s2 s3 : string) :
  (s1 ++ s2) ++ s3 = s1 ++ s2 ++ s3.
Proof.
  induction s1 as [|c s1 IH]; [done|].
  change (String c ((s1 ++ s2) ++ s3) = String c (s1 ++ s2 ++ s3)).
  by rewrite IH.
Qed.

Lemma string_app_length (s1 s2 : string) :
  String.length (s1 ++ s2) = (String.length s1 + String.length s2)%nat.
Proof.
  induction s1 as [|c s1 IH]; [done|].
  change (S (String.length (s1 ++ s2)) =
          S (String.length s1 + String.length s2)).
  by rewrite IH.
Qed.

Lemma int_of_digits_snoc (acc : Z) (s : string) (c : ascii) :
  int_of_digits acc (s ++ String c "") =
  (10 * int_of_digits acc s + digit_value c)%Z.
Proof.
  revert acc. induction s as [|d s IH]; intros acc; [done|].
  change (int_of_digits (10 * acc + digit_value d) (s ++ String c "") =
          (10 * int_of_digits (10 * acc + digit_value d) s + digit_value c)%Z).
  apply IH.
Qed.

Lemma digit_value_digit (n : Z) : digit_value (digit n) = (n mod 10)%Z.
Proof.
  unfold digit_value, digit.
  pose proof (Z.mod_pos_bound n 10 eq_refl) as Hn.
  rewrite nat_ascii_embedding by lia. lia.
Qed.

(** [zfill] writes the last [width] decimal digits of a number. *)
Lemma zfill_spec (width : nat) (n : Z) :
  String.length (zfill width n) = width /\
  int (zfill width n) = (n mod 10 ^ Z.of_nat width)%Z.
Proof.
  unfold int. revert n. induction width as [|w IH]; intros n.
  { split; [done|]. simpl. by rewrite Z.mod_1_r. }
  destruct (IH (n / 10)%Z) as [Hlen Hint].
  cbn [zfill]. split.
  - rewrite string_app_length, Hlen. simpl. lia.
  - rewrite int_of_digits_snoc, Hint, digit_value_digit.
    rewrite Nat2Z.inj_succ, Z.pow_succ_r by lia.
    rewrite (Z.rem_mul_r n 10 (10 ^ Z.of_nat w)) by lia. lia.
Qed.

(** For the years from 1000 on, the stamp of [strftime_Ymd] reads back as
    the year, the month and the day, on four, two and two digits. *)
Lemma strftime_Ymd_spec (dt : datetime) :
  (1000 <= year dt <= 9999 /\ 1 <= month dt <= 12 /\ 1 <= day dt <= 31)%Z ->
  exists yyyy mm dd,
    strftime_Ymd dt = yyyy ++ mm ++ dd /\
    String.length yyyy = 4%nat /\ String.length mm = 2%nat /\
    String.length dd = 2%nat /\
    int yyyy = year dt /\ int mm = month dt /\ int dd = day dt.
Proof.
  intros (Hy & Hm & Hd).
  exists (zfill 4 (year dt)), (zfill 2 (month dt)), (zfill 2 (day dt)).
  destruct (zfill_spec 4 (year dt)) as [-> ->].
  destruct (zfill_spec 2 (month dt)) as [-> ->].
  destruct (zfill_spec 2 (day dt)) as [-> ->].
  split_and!; try done; apply Z.mod_small; simpl; lia.
Qed.

(** ** The effect monad *)

Lemma fetch_calls_app (t1 t2 : trace) :
  fetch_calls (t1 ++ t2)%list = (fetch_calls t1 ++ fetch_calls t2)%list.
Proof. apply omap_app. Qed.

Lemma run_bind {A B} (m : M A) (f : A -> M B) (t : trace) :
  (m ≫= f) t =
  match m t with
  | (inr x, t') => f x t'
  | (inl e, t') => (inl e, t')
  end.
Proof. reflexivity. Qed.

Lemma for_each_cons {A B} (f : A -> M B) (x : A) (xs : list A) (t : trace) :
  for_each f (x :: xs) t =
  match f x t with
  | (inr y, t1) =>
      match for_each f xs t1 with
      | (inr ys, t2) => (inr (y :: ys), t2)
      | (inl e, t2) => (inl e, t2)
      end
  | (inl e, t1) => (inl e, t1)
  end.
Proof.
  simpl. rewrite run_bind. destruct (f x t) as [[e|y] t1]; [done|].
  rewrite run_bind. by destruct (for_each f xs t1) as [[e|ys] t2].
Qed.

Lemma getitem_run (d : article) (key : string) (t : trace) :
  getitem d key t =
  match d !! key with
  | Some v => (inr v, t)
  | None => (inl (KeyError key), t)
  end.
Proof. unfold getitem. by destruct (d !! key). Qed.

(** Reading the fields of a list of dictionaries touches nothing, and it
    succeeds exactly when every dictionary has the key. *)
Lemma for_each_getitem_trace (key : string) (l : list article) (t : trace) :
  (for_each (fun item => getitem item key) l t).2 = t.
Proof.
  induction l as [|a l IH]; [done|].
  rewrite for_each_cons, getitem_run. destruct (a !! key); [|done].
  by destruct (for_each _ l t) as [[e|vs] t'].
Qed.

Lemma for_each_getitem_inr (key : string) (l : list article) (t : trace)
    (vs : list string) (t' : trace) :
  for_each (fun item => getitem item key) l t = (inr vs, t') ->
  vs = omap (fun item : article => item !! key) l /\ length vs = length l.
Proof.
  revert vs. induction l as [|a l IH]; intros vs.
  { intros [= <- <-]. done. }
  rewrite for_each_cons, getitem_run.
  destruct (a !! key) as [v|] eqn:Hv; [|done].
  destruct (for_each _ l t) as [[e|ws] t'']; [done|].
  intros [= <- <-]. destruct (IH ws eq_refl) as [-> Hlen].
  simpl. by rewrite Hv, Hlen.
Qed.

Lemma for_each_getitem_total (key : string) (l : list article) (t : trace) :
  Forall (fun item : article => is_Some (item !! key)) l ->
  exists vs, for_each (fun item => getitem item key) l t = (inr vs, t).
Proof.
  induction 1 as [|a l [v Hv] _ [vs IH]].
  { by eexists. }
  rewrite for_each_cons, getitem_run, Hv, IH. by eexists.
Qed.

(** ** Lists: order of occurrence *)

Section precedes.
Context {A : Type}.
Implicit Types (a b x : A) (l : list A).

Lemma precedes_nil a b : ~ precedes a b [].
Proof. intros (l1 & l2 & l3 & H). by destruct l1. Qed.

Lemma precedes_cons a b x l :
  precedes a b (x :: l) <-> (x = a /\ b ∈ l) \/ precedes a b l.
Proof.
  split.
  - intros (l1 & l2 & l3 & H). destruct l1 as [|y l1]; simplify_eq/=.
    + left. split; [done|]. set_solver.
    + right. by exists l1, l2, l3.
  - intros [[-> Hb]|(l1 & l2 & l3 & ->)].
    + apply list_elem_of_split in Hb as (l2 & l3 & ->). by exists [], l2, l3.
    + by exists (x :: l1), l2, l3.
Qed.

Lemma precedes_snoc a b x l :
  precedes a b (l ++ [x]) <-> precedes a b l \/ (a ∈ l /\ b = x).
Proof.
  induction l as [|y l IH]; simpl.
  - rewrite precedes_cons. split.
    + intros [[_ Hb]|H]; [set_solver|by apply precedes_nil in H].
    + intros [H|[Ha _]]; [by apply precedes_nil in H|set_solver].
  - rewrite !precedes_cons, IH, elem_of_app, list_elem_of_singleton,
      elem_of_cons.
    naive_solver.
Qed.

Lemma precedes_elem_of a b l : precedes a b l -> a ∈ l /\ b ∈ l.
Proof. intros (l1 & l2 & l3 & ->). set_solver. Qed.

Lemma precedes_fmap {B} (f : A -> B) a b l :
  precedes a b l -> precedes (f a) (f b) (f <$> l).
Proof.
  intros (l1 & l2 & l3 & ->). exists (f <$> l1), (f <$> l2), (f <$> l3).
  by rewrite fmap_app, fmap_cons, fmap_app, fmap_cons.
Qed.

End precedes.

Lemma first_index_elem_of (x : string) (l : list string) :
  x ∈ l -> exists i, first_index x l = Some i /\ (i < length l)%nat.
Proof.
  induction l as [|y l IH]; simpl; [by intros ?%elem_of_nil|].
  intros Hx. destruct (decide (y = x)) as [->|Hne].
  - exists 0%nat. split; [done|lia].
  - destruct IH as (i & -> & Hi); [set_solver|].
    exists (S i). split; [done|lia].
Qed.

Lemma first_index_app_l (x : string) (l l' : list string) :
  x ∈ l -> first_index x (l ++ l') = first_index x l.
Proof.
  induction l as [|y l IH]; simpl; [by intros ?%elem_of_nil|].
  intros Hx. destruct (decide (y = x)); [done|].
  rewrite IH; [done|set_solver].
Qed.

Lemma first_index_snoc_new (x : string) (l : list string) :
  x ∉ l -> first_index x (l ++ [x]) = Some (length l).
Proof.
  induction l as [|y l IH]; simpl; intros Hx.
  - by rewrite decide_True.
  - rewrite decide_False by set_solver. rewrite IH; [done|set_solver].
Qed.

(** ** [Counter] and [most_common] *)

Lemma Counter_snoc (l : list string) (x : string) :
  Counter (l ++ [x]) = counter_incr x (Counter l).
Proof. unfold Counter. by rewrite fold_left_app. Qed.

Lemma counter_incr_keys (x : string) (c : counter) :
  (counter_incr x c).*1 = if decide (x ∈ c.*1) then c.*1 else (c.*1 ++ [x])%list.
Proof.
  induction c as [|[k n] c IH].
  - by rewrite decide_False by apply not_elem_of_nil.
  - cbn [counter_incr].
    destruct (decide (k = x)) as [->|Hne]; rewrite !fmap_cons; cbn [fst].
    + by rewrite decide_True by set_solver.
    + rewrite IH. destruct (decide (x ∈ c.*1)).
      * by rewrite decide_True by set_solver.
      * by rewrite decide_False by set_solver.
Qed.

Lemma Counter_keys_elem_of (l : list string) (k : string) :
  k ∈ (Counter l).*1 <-> k ∈ l.
Proof.
  induction l as [|x l IH] using rev_ind; [done|].
  rewrite Counter_snoc, counter_incr_keys.
  destruct (decide (x ∈ (Counter l).*1)) as [Hx|Hx]; set_solver.
Qed.

Lemma Counter_keys_NoDup (l : list string) : NoDup (Counter l).*1.
Proof.
  induction l as [|x l IH] using rev_ind; [constructor|].
  rewrite Counter_snoc, counter_incr_keys.
  destruct (decide (x ∈ (Counter l).*1)) as [Hx|Hx]; [done|].
  apply NoDup_app. split_and!; [done|set_solver|apply NoDup_singleton].
Qed.

(** The keys of a [Counter] come in the order of their first occurrence. *)
Lemma Counter_keys_order (l : list string) (k1 k2 : string) :
  precedes k1 k2 (Counter l).*1 ->
  exists i j,
    first_index k1 l = Some i /\ first_index k2 l = Some j /\ (i < j)%nat.
Proof.
  induction l as [|x l IH] using rev_ind.
  { by intros ?%precedes_nil. }
  rewrite Counter_snoc, counter_incr_keys. intros H.
  assert (precedes k1 k2 (Counter l).*1 \/
          (k1 ∈ l /\ k2 = x /\ x ∉ l)) as [Hold|(Hk1 & -> & Hx)].
  { destruct (decide (x ∈ (Counter l).*1)) as [Hx|Hx]; [by left|].
    apply precedes_snoc in H as [H|[Hk1 ->]]; [by left|].
    rewrite Counter_keys_elem_of in Hk1, Hx. by right. }
  - destruct (IH Hold) as (i & j & Hi & Hj & Hij).
    apply precedes_elem_of in Hold as [Hk1 Hk2].
    rewrite Counter_keys_elem_of in Hk1, Hk2.
    exists i, j. by rewrite !first_index_app_l.
  - destruct (first_index_elem_of k1 l Hk1) as (i & Hi & Hlt).
    exists i, (length l).
    by rewrite first_index_app_l, first_index_snoc_new.
Qed.

Lemma counter_get_incr (x k : string) (c : counter) :
  counter_get k (counter_incr x c) =
  if decide (x = k) then S (counter_get k c) else counter_get k c.
Proof.
  induction c as [|[k' n] c IH]; simpl.
  - by destruct (decide (x = k)).
  - destruct (decide (k' = x)) as [->|Hne]; simpl.
    + by destruct (decide (x = k)).
    + rewrite IH. destruct (decide (k' = k)) as [->|]; [|done].
      by rewrite decide_False by done.
Qed.

(** A [Counter] counts. *)
Lemma counter_get_Counter (l : list string) (k : string) :
  counter_get k (Counter l) = occurrences k l.
Proof.
  unfold occurrences. induction l as [|x l IH] using rev_ind; [done|].
  rewrite Counter_snoc, counter_get_incr, filter_app, length_app, <- IH.
  rewrite filter_cons, filter_nil.
  destruct (decide (x = k)); simpl; lia.
Qed.

Lemma counter_get_elem_of (c : counter) (k : string) (n : nat) :
  NoDup c.*1 -> (k, n) ∈ c -> counter_get k c = n.
Proof.
  induction c as [|[k' m] c IH]; simpl; [by intros _ ?%elem_of_nil|].
  rewrite NoDup_cons, elem_of_cons. intros [Hk' Hnd] [[= -> ->]|Hin].
  - by rewrite decide_True.
  - rewrite decide_False; [by apply IH|].
    intros ->. apply Hk'. by apply (list_elem_of_fmap_2 fst) in Hin.
Qed.

Lemma sum_values_incr (x : string) (c : counter) :
  sum_values (counter_incr x c) = S (sum_values c).
Proof.
  unfold sum_values. induction c as [|[k n] c IH]; simpl; [done|].
  destruct (decide (k = x)); simpl; lia.
Qed.

Lemma sum_values_Counter (l : list string) :
  sum_values (Counter l) = length l.
Proof.
  induction l as [|x l IH] using rev_ind; [done|].
  rewrite Counter_snoc, sum_values_incr, IH, length_app. simpl. lia.
Qed.

Lemma insert_by_count_perm (x : string * nat) (l : counter) :
  insert_by_count x l ≡ₚ x :: l.
Proof.
  induction l as [|y l IH]; simpl; [done|].
  destruct (y.2 <=? x.2)%nat; [done|]. by rewrite IH, Permutation_swap.
Qed.

Lemma most_common_perm (c : counter) : most_common c ≡ₚ c.
Proof.
  unfold most_common, sorted_by_count_reverse.
  induction c as [|x c IH]; simpl; [done|].
  by rewrite insert_by_count_perm, IH.
Qed.

Lemma insert_by_count_sorted (x : string * nat) (l : counter) :
  StronglySorted count_ge l -> StronglySorted count_ge (insert_by_count x l).
Proof.
  induction 1 as [|y l Hl IH Hy]; simpl.
  { repeat constructor. }
  destruct (y.2 <=? x.2)%nat eqn:Hle.
  - apply Nat.leb_le in Hle. constructor; [by constructor|].
    constructor; [done|].
    eapply Forall_impl; [exact Hy|]. unfold count_ge. intros z Hz. lia.
  - apply Nat.leb_gt in Hle. constructor; [done|].
    rewrite insert_by_count_perm. constructor; [|done].
    unfold count_ge. lia.
Qed.

Lemma most_common_sorted (c : counter) :
  StronglySorted count_ge (most_common c).
Proof.
  unfold most_common, sorted_by_count_reverse.
  induction c as [|x c IH]; simpl; [constructor|].
  by apply insert_by_count_sorted.
Qed.

Lemma StronglySorted_precedes {A} (R : A -> A -> Prop) (a b : A)
    (l : list A) :
  StronglySorted R l -> precedes a b l -> R a b.
Proof.
  induction 1 as [|x l Hl IH Hx]; [by intros ?%precedes_nil|].
  rewrite precedes_cons. intros [[-> Hb]|H]; [|by apply IH].
  by eapply Forall_forall in Hx.
Qed.

(** Where [insert_by_count] puts [x]: behind the entries with a larger
    count only, so in front of every entry with its own count. *)
Lemma insert_by_count_precedes (x a b : string * nat) (l : counter) :
  precedes a b (insert_by_count x l) ->
  precedes a b l \/ (a = x /\ b ∈ l) \/ (b = x /\ (x.2 < a.2)%nat).
Proof.
  induction l as [|y l IH]; simpl.
  { rewrite precedes_cons. intros [[_ Hb]|H%precedes_nil]; [|done].
    by apply elem_of_nil in Hb. }
  destruct (y.2 <=? x.2)%nat eqn:Hle.
  { rewrite precedes_cons. intros [[-> Hb]|H]; [|by left].
    right; left. done. }
  apply Nat.leb_gt in Hle.
  rewrite !precedes_cons. intros [[-> Hb]|H].
  - rewrite insert_by_count_perm, elem_of_cons in Hb.
    destruct Hb as [->|Hb]; [|by left; left].
    right; right. done.
  - destruct (IH H) as [H'|[[-> Hb]|[-> Hlt]]].
    + left. by right.
    + right; left. split; [done|]. by right.
    + right; right. done.
Qed.

(** Stability: entries with equal counts keep the order they had. *)
Lemma most_common_stable (a b : string * nat) (c : counter) :
  precedes a b (most_common c) -> a.2 = b.2 -> precedes a b c.
Proof.
  unfold most_common, sorted_by_count_reverse. intros H Heq. revert H.
  induction c as [|x c IH]; simpl; [done|].
  intros [H|[[-> Hb]|[-> Hlt]]]%insert_by_count_precedes.
  - apply precedes_cons. right. by apply IH.
  - apply precedes_cons. left. split; [done|].
    by rewrite <- (most_common_perm c).
  - lia.
Qed.

Lemma sum_values_most_common (c : counter) :
  sum_values (most_common c) = sum_values c.
Proof. unfold sum_values. by rewrite most_common_perm. Qed.

(** The [stats] of a list of sources: counts do not increase along it, and
    of two sources with one count the one met first comes first. *)
Lemma most_common_Counter_order (sources : list string)
    (k1 k2 : string) (n1 n2 : nat) :
  precedes (k1, n1) (k2, n2) (most_common (Counter sources)) ->
  (n2 <= n1)%nat /\
  (n1 = n2 ->
   exists i j,
     first_index k1 sources = Some i /\ first_index k2 sources = Some j /\
     (i < j)%nat).
Proof.
  intros H. split.
  - eapply (StronglySorted_precedes count_ge) in H; [done|].
    apply most_common_sorted.
  - intros Heq. apply most_common_stable in H; [|done].
    apply (precedes_fmap fst) in H. by apply Counter_keys_order in H.
Qed.

(** Each entry of [stats] is a source with the number of its articles. *)
Lemma most_common_Counter_elem_of (sources : list string)
    (k : string) (n : nat) :
  (k, n) ∈ most_common (Counter sources) <->
  n = occurrences k sources /\ k ∈ sources.
Proof.
  rewrite most_common_perm. split.
  - intros H. split.
    + rewrite <- counter_get_Counter. symmetry.
      apply counter_get_elem_of; [apply Counter_keys_NoDup|done].
    + apply Counter_keys_elem_of. by apply (list_elem_of_fmap_2 fst) in H.
  - intros [-> Hk]. apply Counter_keys_elem_of in Hk.
    apply list_elem_of_fmap in Hk as ([k' n] & -> & Hin). simpl.
    rewrite <- counter_get_Counter.
    by rewrite (counter_get_elem_of _ _ _ (Counter_keys_NoDup _) Hin).
Qed.

(** ** The news query handler *)

Section app_facts.

Context (fetch_rss_news :
           string -> date -> date -> string -> exn + list article).
Context (sentiments : string -> exn + Q).
Context (strptime : string -> string -> exn + datetime).
Context (to_excel : json -> string -> exn + list Byte.byte).
Context (app_dir : string).

Lemma annotate_run (item : article) (t : trace) :
  annotate sentiments item t =
  match item !! "標題" with
  | None => (inl (KeyError "標題"), t)
  | Some title =>
      match sentiments title with
      | inl e => (inl e, (t ++ [Call_SnowNLP title])%list)
      | inr score =>
          (inr (<["情感" := classify_sentiment score]> item),
           (t ++ [Call_SnowNLP title])%list)
      end
  end.
Proof.
  unfold annotate. rewrite run_bind, getitem_run.
  destruct (item !! "標題") as [title|]; [|done].
  rewrite run_bind. unfold call. by destruct (sentiments title).
Qed.

(** The loop only talks to [SnowNLP]. *)
Lemma for_each_annotate_trace (l : list article) (t : trace) :
  exists titles,
    (for_each (annotate sentiments) l t).2 =
    (t ++ (Call_SnowNLP <$> titles))%list.
Proof.
  revert t. induction l as [|a l IH]; intros t.
  { exists []. simpl. by rewrite app_nil_r. }
  rewrite for_each_cons, annotate_run.
  destruct (a !! "標題") as [title|].
  2:{ exists []. simpl. by rewrite app_nil_r. }
  destruct (sentiments title) as [e|score].
  { by exists [title]. }
  destruct (IH (t ++ [Call_SnowNLP title])%list) as [titles Ht].
  exists (title :: titles).
  destruct (for_each (annotate sentiments) l _) as [[e|l'] t']; simpl in *;
    by rewrite Ht, <- app_assoc.
Qed.

(** When the loop ends normally every article has been annotated. *)
Lemma for_each_annotate_inr (l l' : list article) (t t' : trace) :
  for_each (annotate sentiments) l t = (inr l', t') ->
  Forall2 (annotated sentiments) l l'.
Proof.
  revert l' t. induction l as [|a l IH]; intros l' t.
  { intros [= <- <-]. constructor. }
  rewrite for_each_cons, annotate_run.
  destruct (a !! "標題") as [title|] eqn:Htitle; [|done].
  destruct (sentiments title) as [e|score] eqn:Hscore; [done|].
  destruct (for_each (annotate sentiments) l _) as [[e|l''] t''] eqn:Hrest;
    [done|].
  intros [= <- <-]. constructor; [|by eapply IH].
  by exists title, score.
Qed.

(** One title that cannot be scored makes the whole loop raise. *)
Lemma for_each_annotate_raises (l : list article) (t : trace)
    (item : article) (title : string) (e : exn) :
  item ∈ l -> item !! "標題" = Some title -> sentiments title = inl e ->
  exists e' t', for_each (annotate sentiments) l t = (inl e', t').
Proof.
  intros Hin Htitle Hscore. revert t.
  induction Hin as [item l|item a l _ IH]; intros t;
    rewrite for_each_cons, annotate_run.
  - rewrite Htitle, Hscore. by eexists _, _.
  - destruct (a !! "標題") as [title'|]; [|by eexists _, _].
    destruct (sentiments title') as [e'|score]; [by eexists _, _|].
    destruct (IH Htitle (t ++ [Call_SnowNLP title'])%list)
      as (e' & t' & ->).
    by eexists _, _.
Qed.

(** The loop ends normally when every title is there and can be scored. *)
Lemma for_each_annotate_total (l : list article) (t : trace) :
  Forall (fun item : article =>
            exists title score,
              item !! "標題" = Some title /\
              sentiments title = inr score) l ->
  exists l' t', for_each (annotate sentiments) l t = (inr l', t').
Proof.
  intros Hl. revert t.
  induction Hl as [|a l (title & score & Ht & Hs) _ IH]; intros t.
  { by eexists _, _. }
  rewrite for_each_cons, annotate_run, Ht, Hs.
  destruct (IH (t ++ [Call_SnowNLP title])%list) as (l' & t' & ->).
  by eexists _, _.
Qed.

Lemma date_range_trace (w : world) (a b : option string) (t : trace) :
  (date_range strptime w a b t).2 = t.
Proof.
  unfold date_range.
  destruct (truthy_str a && truthy_str b); rewrite run_bind; unfold lift.
  - destruct (strptime _ _); [done|]. rewrite run_bind.
    by destruct (strptime _ _).
  - by destruct (date_sub _ _).
Qed.

(** [get_news], one step after the other. *)
Lemma get_news_run (w : world) (req : request) (t : trace) :
  get_news fetch_rss_news sentiments strptime w req t =
  let keyword := default "台灣" (args req !! "keyword") in
  let logic := default "OR" (args req !! "logic") in
  match date_range strptime w (args req !! "start_date")
                   (args req !! "end_date") t with
  | (inl e, t1) => get_news_failed e t1
  | (inr (start_date, end_date), t1) =>
      let t2 :=
        (t1 ++ [Call_fetch_rss_news keyword start_date end_date logic])%list
      in
      match fetch_rss_news keyword start_date end_date logic with
      | inl e => get_news_failed e t2
      | inr [] => (inr (jsonify (NewsBody true 0 [] []) 200), t2)
      | inr news_list =>
          match for_each (annotate sentiments) news_list t2 with
          | (inl e, t3) => get_news_failed e t3
          | (inr news_list', t3) =>
              match for_each (fun item => getitem item "來源")
                             news_list' t3 with
              | (inl e, t4) => get_news_failed e t4
              | (inr sources, t4) =>
                  (inr (jsonify (NewsBody true (length news_list')
                                   news_list'
                                   (most_common (Counter sources))) 200),
                   t4)
              end
          end
      end
  end.
Proof.
  unfold get_news, try_except. cbv zeta. rewrite run_bind.
  destruct (date_range _ _ _ _ _) as [[e|[start_date end_date]] t1];
    [done|].
  rewrite run_bind. unfold call at 1.
  destruct (fetch_rss_news _ _ _ _) as [e|news_list]; [done|].
  rewrite run_bind. destruct news_list as [|item news_list]; [done|].
  rewrite bool_decide_true by done.
  destruct (for_each _ _ _) as [[e|news_list'] t3] eqn:Hloop; [done|].
  apply for_each_annotate_inr, Forall2_length in Hloop.
  destruct news_list' as [|item' news_list']; [done|].
  rewrite run_bind, bool_decide_true by done. rewrite run_bind.
  by destruct (for_each _ _ _) as [[e|sources] t4].
Qed.

Lemma fetch_calls_SnowNLP (titles : list string) :
  fetch_calls (Call_SnowNLP <$> titles) = [].
Proof. by induction titles. Qed.

Lemma date_range_default (w : world) (a b : option string) (t : trace) :
  a = None \/ b = None ->
  (7 < toordinal (today w) <= MAXORDINAL)%Z ->
  date_range strptime w a b t =
  (inr (Date (toordinal (today w) - 7), today w), t).
Proof.
  intros Hab Hrange. unfold date_range.
  replace (truthy_str a && truthy_str b) with false
    by (destruct Hab as [-> | ->]; [done|by rewrite andb_false_r]).
  rewrite run_bind. unfold lift, date_sub. cbn [days].
  replace (0 <? toordinal (today w) - 7)%Z with true by lia.
  replace (toordinal (today w) - 7 <=? MAXORDINAL)%Z with true by lia.
  done.
Qed.

(** The handler calls the fetcher once, after the date range is known,
    and not at all when the date range cannot be computed. *)
Lemma get_news_fetch_calls (w : world) (req : request) (t : trace) :
  fetch_calls (get_news fetch_rss_news sentiments strptime w req t).2 =
  (fetch_calls t ++
   match (date_range strptime w (args req !! "start_date")
                     (args req !! "end_date") t).1 with
   | inr (start_date, end_date) =>
       [(default "台灣" (args req !! "keyword"), start_date, end_date,
         default "OR" (args req !! "logic"))]
   | inl _ => []
   end)%list.
Proof.
  rewrite get_news_run. cbv zeta. unfold get_news_failed.
  pose proof (date_range_trace w (args req !! "start_date")
                (args req !! "end_date") t) as Ht.
  destruct (date_range _ _ _ _ _) as [[e|[start_date end_date]] t1];
    cbn [fst snd] in *; subst t1.
  { by rewrite fetch_calls_app. }
  destruct (fetch_rss_news _ _ _ _) as [e|news_list]; cbn [fst snd].
  { rewrite !fetch_calls_app. simpl. by rewrite app_nil_r. }
  destruct news_list as [|item news_list]; cbn [fst snd].
  { by rewrite fetch_calls_app. }
  match goal with
  | |- context [for_each (annotate sentiments) ?l ?t2] =>
      destruct (for_each_annotate_trace l t2) as [titles Htitles];
      destruct (for_each (annotate sentiments) l t2)
        as [[e|news_list'] t3]
  end; cbn [fst snd] in *; subst t3.
  { rewrite !fetch_calls_app, fetch_calls_SnowNLP. simpl.
    by rewrite !app_nil_r. }
  match goal with
  | |- context [for_each ?f ?l ?t3] =>
      pose proof (for_each_getitem_trace "來源" l t3) as Hsrc;
      destruct (for_each f l t3) as [[e|sources] t4]
  end; cbn [fst snd] in *; subst t4.
  - rewrite !fetch_calls_app, fetch_calls_SnowNLP. simpl.
    by rewrite !app_nil_r.
  - rewrite !fetch_calls_app, fetch_calls_SnowNLP. simpl.
    by rewrite !app_nil_r.
Qed.

(** The handler always answers. *)
Lemma get_news_returns (w : world) (req : request) (t : trace) :
  exists r t',
    get_news fetch_rss_news sentiments strptime w req t = (inr r, t').
Proof.
  rewrite get_news_run. cbv zeta. unfold get_news_failed.
  repeat case_match; by eexists _, _.
Qed.

(** What a successful answer is made of. *)
Lemma get_news_inr_NewsBody (w : world) (req : request) (t t' : trace)
    (success : bool) (count : nat) (data : list article) (stats : counter)
    (status : Z) :
  get_news fetch_rss_news sentiments strptime w req t =
    (inr (jsonify (NewsBody success count data stats) status), t') ->
  success = true /\ status = 200%Z /\ count = length data /\
  length (sources_of data) = length data /\
  stats = most_common (Counter (sources_of data)) /\
  exists start_date end_date news_list,
    (date_range strptime w (args req !! "start_date")
                (args req !! "end_date") t).1 =
      inr (start_date, end_date) /\
    fetch_rss_news (default "台灣" (args req !! "keyword"))
                   start_date end_date
                   (default "OR" (args req !! "logic")) = inr news_list /\
    Forall2 (annotated sentiments) news_list data.
Proof.
  rewrite get_news_run. cbv zeta. unfold get_news_failed.
  destruct (date_range _ _ _ _ _) as [[e|[start_date end_date]] t1];
    [done|]. cbn [fst].
  destruct (fetch_rss_news _ _ _ _) as [e|news_list] eqn:Hfetch; [done|].
  destruct news_list as [|item news_list].
  { intros [= <- <- <- <- <- <-]. split_and!; try done.
    exists start_date, end_date, []. split_and!; [done..|constructor]. }
  destruct (for_each (annotate sentiments) _ _)
    as [[e|news_list'] t3] eqn:Hloop; [done|].
  destruct (for_each _ news_list' t3) as [[e|sources] t4] eqn:Hsrc; [done|].
  intros [= <- <- <- <- <- <-].
  apply for_each_getitem_inr in Hsrc as [-> Hlen].
  apply for_each_annotate_inr in Hloop.
  split_and!; try done.
  by exists start_date, end_date, (item :: news_list).
Qed.

(** Annotating an article leaves its source alone. *)
Lemma annotated_sources_of (news_list data : list article) :
  Forall2 (annotated sentiments) news_list data ->
  sources_of data = sources_of news_list.
Proof.
  unfold sources_of.
  induction 1 as [|item item' news_list data Hitem _ IH]; [done|].
  destruct Hitem as (title & score & _ & _ & ->).
  cbn [omap list_omap]. by rewrite lookup_insert_ne, IH.
Qed.

(** The handler answers with the payload whenever the date range is there,
    the fetcher returns, and every article has a source and a title that
    can be scored. *)
Lemma get_news_succeeds (w : world) (req : request) (t : trace)
    (start_date end_date : date) (news_list : list article) :
  (date_range strptime w (args req !! "start_date")
              (args req !! "end_date") t).1 = inr (start_date, end_date) ->
  fetch_rss_news (default "台灣" (args req !! "keyword"))
                 start_date end_date
                 (default "OR" (args req !! "logic")) = inr news_list ->
  Forall (fun item : article =>
            is_Some (item !! "來源") /\
            exists title score,
              item !! "標題" = Some title /\
              sentiments title = inr score) news_list ->
  exists data t',
    get_news fetch_rss_news sentiments strptime w req t =
      (inr (jsonify (NewsBody true (length news_list) data
                       (most_common (Counter (sources_of news_list)))) 200),
       t') /\
    Forall2 (annotated sentiments) news_list data.
Proof.
  intros Hrange Hfetch Hall. rewrite get_news_run. cbv zeta.
  destruct (date_range _ _ _ _ _) as [r1 t1]. cbn [fst] in Hrange.
  subst r1. rewrite Hfetch.
  destruct news_list as [|item news_list].
  { eexists [], _. split; [done|constructor]. }
  set (l := item :: news_list) in *.
  edestruct (for_each_annotate_total l) as (data & t3 & Hloop).
  { eapply Forall_impl; [exact Hall|]. by intros ? [_ ?]. }
  rewrite Hloop. apply for_each_annotate_inr in Hloop.
  edestruct (for_each_getitem_total "來源" data t3) as (sources & Hsrc).
  { eapply Forall2_Forall_r; [exact Hloop|].
    eapply Forall_impl; [exact Hall|].
    intros a [Ha _] a' (title & score & _ & _ & ->).
    by rewrite lookup_insert_ne. }
  rewrite Hsrc. apply for_each_getitem_inr in Hsrc as [-> _].
  exists data, t3. split; [|done].
  fold (sources_of data). rewrite (annotated_sources_of _ _ Hloop).
  by rewrite (Forall2_length _ _ _ Hloop).
Qed.

(** A series of requests without dates, served from any earlier trace. *)
Lemma serve_news_fetch_calls (requests : list (world * request))
    (t : trace) :
  Forall (fun r : world * request =>
            (args r.2 !! "start_date" = None \/
             args r.2 !! "end_date" = None) /\
            (7 < toordinal (today r.1) <= MAXORDINAL)%Z) requests ->
  fetch_calls
    (serve_news fetch_rss_news sentiments strptime requests t).2 =
  (fetch_calls t ++
   ((fun r : world * request =>
       (default "台灣" (args r.2 !! "keyword"),
        Date (toordinal (today r.1) - 7), today r.1,
        default "OR" (args r.2 !! "logic"))) <$> requests))%list.
Proof.
  unfold serve_news. intros Hreqs. revert t.
  induction Hreqs as [|[w req] requests [Hdates Hclock] _ IH]; intros t.
  { simpl. by rewrite app_nil_r. }
  rewrite for_each_cons. cbn [fst snd] in *.
  pose proof (get_news_fetch_calls w req t) as Hcalls.
  rewrite (date_range_default w _ _ t Hdates Hclock) in Hcalls.
  destruct (get_news_returns w req t) as (r & t1 & Hrun).
  rewrite Hrun in Hcalls |- *. cbn [fst snd] in Hcalls.
  specialize (IH t1).
  destruct (for_each _ requests t1) as [[e|rs] t2]; cbn [fst snd] in *;
    rewrite IH, Hcalls, fmap_cons, <- app_assoc; done.
Qed.

(** C2: when [start_date] or [end_date] (or both) is missing from the
    query, the fetcher is called with the window from seven days before
    today to today, where today is the date of the clock at the time the
    request is served: along any series of such requests each call gets
    the window of its own day.  (The clock is taken to show a date of the
    calendar later than 0001-01-07, so that the subtraction stays in
    range.) *)
Theorem get_news_default_window (requests : list (world * request)) :
  Forall (fun r : world * request =>
            (args r.2 !! "start_date" = None \/
             args r.2 !! "end_date" = None) /\
            (7 < toordinal (today r.1) <= MAXORDINAL)%Z) requests ->
  fetch_calls
    (serve_news fetch_rss_news sentiments strptime requests []).2 =
  (fun r : world * request =>
     (default "台灣" (args r.2 !! "keyword"),
      Date (toordinal (today r.1) - 7), today r.1,
      default "OR" (args r.2 !! "logic"))) <$> requests.
Proof. intros Hreqs. by rewrite serve_news_fetch_calls. Qed.

(** C8 (as the code has it): when the query has no [keyword] the fetcher
    is given the keyword 台灣, and when it has no [logic] the fetcher is
    given "OR"; the call is made as soon as the date range is known. *)
Theorem get_news_default_keyword_logic (w : world) (req : request)
    (t : trace) (start_date end_date : date) :
  (date_range strptime w (args req !! "start_date")
              (args req !! "end_date") t).1 = inr (start_date, end_date) ->
  exists keyword logic,
    fetch_calls (get_news fetch_rss_news sentiments strptime w req t).2 =
      (fetch_calls t ++ [(keyword, start_date, end_date, logic)])%list /\
    (args req !! "keyword" = None -> keyword = "台灣") /\
    (args req !! "logic" = None -> logic = "OR").
Proof.
  intros Hrange. eexists _, _. split.
  - rewrite get_news_fetch_calls, Hrange. done.
  - split; by intros ->.
Qed.

(** C3: in every answer with a non-empty [data] list, the values of
    [stats] add up to [count], [count] is the length of [data], and
    [stats] holds, for each source of an article of [data], the number of
    articles of that source. *)
Theorem get_news_stats_sum_to_count (w : world) (req : request)
    (t t' : trace) (success : bool) (count : nat) (data : list article)
    (stats : counter) (status : Z) :
  get_news fetch_rss_news sentiments strptime w req t =
    (inr (jsonify (NewsBody success count data stats) status), t') ->
  data <> [] ->
  sum_values stats = count /\ count = length data /\
  forall source n,
    (source, n) ∈ stats <->
    n = occurrences source (sources_of data) /\ source ∈ sources_of data.
Proof.
  intros (_ & _ & -> & Hlen & -> & _)%get_news_inr_NewsBody _.
  split_and!; [|done|].
  - by rewrite sum_values_most_common, sum_values_Counter.
  - intros source n. apply most_common_Counter_elem_of.
Qed.

(** C7: in every answer, along [stats] the counts never increase, and of
    two sources with the same count the one whose first article comes
    first in the article list stands first. *)
Theorem get_news_stats_order (w : world) (req : request)
    (t t' : trace) (success : bool) (count : nat) (data : list article)
    (stats : counter) (status : Z) (k1 k2 : string) (n1 n2 : nat) :
  get_news fetch_rss_news sentiments strptime w req t =
    (inr (jsonify (NewsBody success count data stats) status), t') ->
  precedes (k1, n1) (k2, n2) stats ->
  (n2 <= n1)%nat /\
  (n1 = n2 ->
   exists i j,
     first_index k1 (sources_of data) = Some i /\
     first_index k2 (sources_of data) = Some j /\ (i < j)%nat).
Proof.
  intros (_ & _ & _ & _ & -> & _)%get_news_inr_NewsBody.
  apply most_common_Counter_order.
Qed.

(** ** The export handler and the index route *)

Lemma download_selected_run (w : world) (req : request) (t : trace) :
  download_selected to_excel w req t =
  match get_json req with
  | inl e => download_selected_failed e t
  | inr selected_news =>
      if negb (truthy selected_news) || negb (isinstance_list selected_news)
      then (inr (jsonify (ErrorBody false "沒有提供選中的新聞或格式錯誤")
                   400), t)
      else
        let t1 :=
          (t ++ [Call_to_excel selected_news "Selected News"])%list in
        match to_excel selected_news "Selected News" with
        | inl e => download_selected_failed e t1
        | inr output =>
            (inr (send_file output XLSX_MIMETYPE true (export_name (now w))),
             t1)
        end
  end.
Proof.
  unfold download_selected, try_except. rewrite run_bind. unfold lift.
  destruct (get_json req) as [e|v]; [done|].
  destruct (negb (truthy v) || negb (isinstance_list v)); [done|].
  rewrite run_bind. unfold call.
  by destruct (to_excel v "Selected News").
Qed.

(** C4 (as the code has it): when [request.get_json()] returns a body that
    is [None], is not a list, or is falsy (the empty list, for one), the
    export handler answers 400 with the error object, never 500, and does
    nothing else. *)
Theorem download_selected_bad_request (w : world) (req : request)
    (t : trace) (selected_news : json) :
  get_json req = inr selected_news ->
  selected_news = JNull \/ isinstance_list selected_news = false \/
    truthy selected_news = false ->
  exists message,
    download_selected to_excel w req t =
      (inr (jsonify (ErrorBody false message) 400), t) /\
    status_code (jsonify (ErrorBody false message) 400) <> Some 500%Z.
Proof.
  intros Hbody Hbad. rewrite download_selected_run, Hbody.
  replace (negb (truthy selected_news) ||
           negb (isinstance_list selected_news)) with true.
  { by eexists. }
  destruct Hbad as [-> | [-> | ->]]; [done| |done].
  by rewrite orb_true_r.
Qed.

(** C5: when the body is a non-empty list and the workbook can be
    written, the export handler answers 200 with the bytes of the
    workbook, the spreadsheet MIME type, as an attachment, under the name
    selected_news_<YYYYMMDD>.xlsx where YYYY, MM and DD are the year, the
    month and the day of the server's clock. *)
Theorem download_selected_attachment (w : world) (req : request)
    (t : trace) (rows : list json) (output : list Byte.byte) :
  get_json req = inr (JArr rows) ->
  rows <> [] ->
  to_excel (JArr rows) "Selected News" = inr output ->
  let r :=
    send_file output
      "application/vnd.openxmlformats-officedocument.spreadsheetml.sheet"
      true
      ("selected_news_" ++ zfill 4 (year (now w)) ++
         zfill 2 (month (now w)) ++ zfill 2 (day (now w)) ++ ".xlsx") in
  download_selected to_excel w req t =
    (inr r, (t ++ [Call_to_excel (JArr rows) "Selected News"])%list) /\
  status_code r = Some 200%Z.
Proof.
  intros Hbody Hrows Hxlsx r. split; [|done].
  rewrite download_selected_run, Hbody. destruct rows as [|row rows]; [done|].
  cbn [truthy isinstance_list negb orb]. cbv zeta. rewrite Hxlsx.
  unfold r, export_name, strftime_Ymd, XLSX_MIMETYPE.
  by rewrite !string_app_assoc.
Qed.

(** C9: at the root path, when the directory of the built frontend does
    not exist the server answers 404 with a text that says to run the
    build of the frontend; when it exists it serves [index.html] from
    that directory. *)
Theorem index_dist_folder (w : world) :
  (path_exists w (DIST_FOLDER app_dir) = false ->
   index app_dir w =
     str_response
       "前端檔案尚未建置 (frontend/dist not found)。請在 'frontend' 目錄下執行 'npm run build'。"
       404) /\
  (path_exists w (DIST_FOLDER app_dir) = true ->
   index app_dir w = send_from_directory (DIST_FOLDER app_dir) "index.html").
Proof. unfold index. split; by intros ->. Qed.

(** C6: both handlers answer every request, either with the whole payload
    or with one error object.  The payload of [get_news] holds every
    article the fetcher returned, each one annotated; the payload of
    [download_selected] is the workbook.  If the title of any one article
    cannot be scored, the answer of [get_news] is the error object with
    status 500, and no article. *)
Theorem handlers_all_or_nothing (w : world) (req : request) (t : trace) :
  (exists r t',
     get_news fetch_rss_news sentiments strptime w req t = (inr r, t') /\
     ((exists message, r = jsonify (ErrorBody false message) 500) \/
      (exists start_date end_date news_list data,
         fetch_rss_news (default "台灣" (args req !! "keyword"))
                        start_date end_date
                        (default "OR" (args req !! "logic")) =
           inr news_list /\
         Forall2 (annotated sentiments) news_list data /\
         r = jsonify (NewsBody true (length data) data
                        (most_common (Counter (sources_of data)))) 200))) /\
  (exists r t',
     download_selected to_excel w req t = (inr r, t') /\
     ((exists message status,
         r = jsonify (ErrorBody false message) status /\
         (status = 400 \/ status = 500)%Z) \/
      (exists selected_news output,
         get_json req = inr selected_news /\
         to_excel selected_news "Selected News" = inr output /\
         r = send_file output XLSX_MIMETYPE true (export_name (now w))))) /\
  (forall start_date end_date news_list item title e,
     (date_range strptime w (args req !! "start_date")
                 (args req !! "end_date") t).1 =
       inr (start_date, end_date) ->
     fetch_rss_news (default "台灣" (args req !! "keyword"))
                    start_date end_date
                    (default "OR" (args req !! "logic")) = inr news_list ->
     item ∈ news_list ->
     item !! "標題" = Some title ->
     sentiments title = inl e ->
     exists message t',
       get_news fetch_rss_news sentiments strptime w req t =
         (inr (jsonify (ErrorBody false message) 500), t')).
Proof.
  split_and!.
  - destruct (get_news_returns w req t) as (r & t' & Hrun).
    exists r, t'. split; [done|].
    destruct r as [[success count data stats|success message] status| | |].
    + apply get_news_inr_NewsBody in Hrun
        as (-> & -> & -> & _ & -> & s & e & news_list & _ & Hfetch & Hall).
      right. by exists s, e, news_list, data.
    + left. exists message. revert Hrun. rewrite get_news_run. cbv zeta.
      unfold get_news_failed. repeat case_match; congruence.
    + revert Hrun. rewrite get_news_run. cbv zeta.
      unfold get_news_failed. repeat case_match; congruence.
    + revert Hrun. rewrite get_news_run. cbv zeta.
      unfold get_news_failed. repeat case_match; congruence.
    + revert Hrun. rewrite get_news_run. cbv zeta.
      unfold get_news_failed. repeat case_match; congruence.
  - rewrite download_selected_run. unfold download_selected_failed.
    destruct (get_json req) as [e|v]; [by eauto 10|].
    destruct (negb (truthy v) || negb (isinstance_list v)); [by eauto 10|].
    cbv zeta. destruct (to_excel v "Selected News") as [e|output] eqn:Hx.
    + eauto 10.
    + eexists _, _. split; [done|]. right. by exists v, output.
  - intros start_date end_date news_list item title e Hrange Hfetch Hin
      Htitle Hscore.
    rewrite get_news_run. cbv zeta.
    destruct (date_range _ _ _ _ _) as [r1 t1]. cbn [fst] in Hrange.
    subst r1. rewrite Hfetch.
    destruct news_list as [|item' news_list]; [by apply elem_of_nil in Hin|].
    edestruct (for_each_annotate_raises (item' :: news_list))
      as (e' & t' & ->); [done..|].
    unfold get_news_failed. by eexists _, _.
Qed.

End app_facts.

(** ** More on the classifier *)

(** X19: a higher score never gets a more negative class. *)
Theorem classify_sentiment_monotone (s s' : Q) :
  (s <= s')%Q ->
  exists c c',
    classify_sentiment s = label c /\ classify_sentiment s' = label c' /\
    (rank c <= rank c')%Z.
Proof.
  intros Hle. pose proof float_literals_in_unit as (_ & Hgap & _).
  destruct (classify_sentiment_cases s) as [[H ->]|[[H ->]|[[H1 H2] ->]]];
    destruct (classify_sentiment_cases s')
      as [[H' ->]|[[H' ->]|[[H1' H2'] ->]]];
    try (exfalso; lra); eexists _, _; split_and!; try done.
Qed.

(** X20: on doubles the classifier tests what it tests on rationals, with
    the comparisons of IEEE-754 and the doubles of the two literals, and it
    has an answer for the values that are not numbers of [0, 1]: NaN is
    neutral (both comparisons fail), plus infinity is positive, and minus
    infinity, the two zeros and every number with the sign bit set are
    negative. *)
Theorem Binary64_classify_sentiment_cases (s : spec_float) :
  (Binary64.classify_sentiment s = label Positive <->
     Binary64.gt s Binary64.lit_0_65 = true) /\
  (Binary64.classify_sentiment s = label Negative <->
     Binary64.lt s Binary64.lit_0_35 = true) /\
  (Binary64.classify_sentiment s = label Neutral <->
     Binary64.gt s Binary64.lit_0_65 = false /\
     Binary64.lt s Binary64.lit_0_35 = false) /\
  Binary64.classify_sentiment S754_nan = label Neutral /\
  Binary64.classify_sentiment (S754_infinity false) = label Positive /\
  Binary64.classify_sentiment (S754_infinity true) = label Negative /\
  (forall sign, Binary64.classify_sentiment (S754_zero sign) =
                label Negative) /\
  (forall m e, Binary64.classify_sentiment (S754_finite true m e) =
               label Negative).
Proof.
  destruct (Binary64_classify_sentiment_spec s) as (Hpos & Hneg & Hneu).
  split_and!; try done.
Qed.

(** ** More on the news query handler *)

Section app_more.

Context (fetch_rss_news :
           string -> date -> date -> string -> exn + list article).
Context (sentiments : string -> exn + Q).
Context (strptime : string -> string -> exn + datetime).
Context (to_excel : json -> string -> exn + list Byte.byte).

(** The loop on articles that can all be scored. *)
Lemma for_each_annotate_scorable (l : list article) (t : trace) :
  Forall (scorable sentiments) l ->
  exists l',
    for_each (annotate sentiments) l t =
      (inr l', (t ++ (Call_SnowNLP <$> titles_of l))%list) /\
    Forall2 (annotated sentiments) l l'.
Proof.
  intros Hl. revert t.
  induction Hl as [|a l (title & score & Ht & Hs) _ IH]; intros t.
  { exists []. split; [|constructor]. simpl. by rewrite app_nil_r. }
  rewrite for_each_cons, annotate_run, Ht, Hs.
  destruct (IH (t ++ [Call_SnowNLP title])%list) as (l' & -> & Hall).
  eexists. split.
  - unfold titles_of. cbn [omap list_omap]. rewrite Ht.
    by rewrite fmap_cons, <- app_assoc.
  - constructor; [|done]. by exists title, score.
Qed.

(** The loop stops at the first article without a title ... *)
Lemma for_each_annotate_no_title (l1 l2 : list article) (item : article)
    (t : trace) :
  Forall (scorable sentiments) l1 ->
  item !! "標題" = None ->
  for_each (annotate sentiments) (l1 ++ item :: l2) t =
    (inl (KeyError "標題"), (t ++ (Call_SnowNLP <$> titles_of l1))%list).
Proof.
  intros Hl Hitem. revert t.
  induction Hl as [|a l (title & score & Ht & Hs) _ IH]; intros t.
  { cbn [app]. rewrite for_each_cons, annotate_run, Hitem.
    simpl. by rewrite app_nil_r. }
  cbn [app]. rewrite for_each_cons, annotate_run, Ht, Hs, IH.
  unfold titles_of. cbn [omap list_omap]. rewrite Ht.
  by rewrite fmap_cons, <- app_assoc.
Qed.

(** ... or whose title cannot be scored. *)
Lemma for_each_annotate_no_score (l1 l2 : list article) (item : article)
    (title : string) (e : exn) (t : trace) :
  Forall (scorable sentiments) l1 ->
  item !! "標題" = Some title ->
  sentiments title = inl e ->
  for_each (annotate sentiments) (l1 ++ item :: l2) t =
    (inl e, (t ++ (Call_SnowNLP <$> (titles_of l1 ++ [title])))%list).
Proof.
  intros Hl Hitem He. revert t.
  induction Hl as [|a l (title' & score & Ht & Hs) _ IH]; intros t.
  { cbn [app]. by rewrite for_each_cons, annotate_run, Hitem, He. }
  cbn [app]. rewrite for_each_cons, annotate_run, Ht, Hs, IH.
  unfold titles_of. cbn [omap list_omap]. rewrite Ht.
  by rewrite <- app_comm_cons, fmap_cons, <- app_assoc.
Qed.

Lemma for_each_getitem_raises (key : string) (l : list article)
    (item : article) (t : trace) :
  item ∈ l -> item !! key = None ->
  for_each (fun item => getitem item key) l t = (inl (KeyError key), t).
Proof.
  intros Hin Hitem.
  induction Hin as [item l|item a l _ IH];
    rewrite for_each_cons, getitem_run.
  - by rewrite Hitem.
  - destruct (a !! key); [|done]. by rewrite IH.
Qed.

(** What the loop body does to an article: it sets [情感] to one of the
    three labels and leaves every other field as it was. *)
Lemma annotated_fields (item item' : article) :
  annotated sentiments item item' ->
  (exists c, item' !! "情感" = Some (label c)) /\
  (forall key, key <> "情感" -> item' !! key = item !! key).
Proof.
  intros (title & score & _ & _ & ->). split.
  - rewrite lookup_insert_eq.
    destruct (classify_sentiment_cases score)
      as [[_ ->]|[[_ ->]|[_ ->]]]; by eexists.
  - intros key Hkey. by rewrite lookup_insert_ne.
Qed.

Lemma annotated_titles_of (news_list data : list article) :
  Forall2 (annotated sentiments) news_list data ->
  titles_of data = titles_of news_list.
Proof.
  unfold titles_of.
  induction 1 as [|item item' news_list data Hitem _ IH]; [done|].
  apply annotated_fields in Hitem as [_ Hitem].
  cbn [omap list_omap]. by rewrite Hitem, IH.
Qed.

(** *** The date range *)

Lemma date_range_defaulted (w : world) (a b : option string) (t : trace) :
  truthy_str a && truthy_str b = false ->
  (7 < toordinal (today w) <= MAXORDINAL)%Z ->
  date_range strptime w a b t =
  (inr (Date (toordinal (today w) - 7), today w), t).
Proof.
  intros Hab Hrange. unfold date_range. rewrite Hab.
  rewrite run_bind. unfold lift, date_sub. cbn [days].
  replace (0 <? toordinal (today w) - 7)%Z with true by lia.
  replace (toordinal (today w) - 7 <=? MAXORDINAL)%Z with true by lia.
  done.
Qed.

Lemma truthy_str_Some (text : string) :
  text <> "" -> truthy_str (Some text) = true.
Proof.
  intros Htext. simpl. apply negb_true_iff, String.eqb_neq. done.
Qed.

Lemma date_range_explicit (w : world) (start_date_str end_date_str : string)
    (s e : datetime) (t : trace) :
  start_date_str <> "" -> end_date_str <> "" ->
  strptime start_date_str "%Y-%m-%d" = inr s ->
  strptime end_date_str "%Y-%m-%d" = inr e ->
  date_range strptime w (Some start_date_str) (Some end_date_str) t =
  (inr (date_of s, date_of e), t).
Proof.
  intros Hs He Hps Hpe. unfold date_range.
  rewrite !truthy_str_Some by done. cbn [andb default from_option id].
  rewrite run_bind. unfold lift. rewrite Hps, run_bind, Hpe. done.
Qed.

Lemma date_range_malformed (w : world) (start_date_str end_date_str : string)
    (ex : exn) (t : trace) :
  start_date_str <> "" -> end_date_str <> "" ->
  strptime start_date_str "%Y-%m-%d" = inl ex \/
    (exists s, strptime start_date_str "%Y-%m-%d" = inr s /\
               strptime end_date_str "%Y-%m-%d" = inl ex) ->
  date_range strptime w (Some start_date_str) (Some end_date_str) t =
  (inl ex, t).
Proof.
  intros Hs He Hparse. unfold date_range.
  rewrite !truthy_str_Some by done. cbn [andb default from_option id].
  rewrite run_bind. unfold lift.
  destruct Hparse as [-> | (s & -> & Hpe)]; [done|].
  by rewrite run_bind, Hpe.
Qed.

(** Once the date range is known. *)
Lemma get_news_run_from_range (w : world) (req : request) (t : trace)
    (start_date end_date : date) :
  (date_range strptime w (args req !! "start_date")
              (args req !! "end_date") t).1 = inr (start_date, end_date) ->
  get_news fetch_rss_news sentiments strptime w req t =
  let keyword := default "台灣" (args req !! "keyword") in
  let logic := default "OR" (args req !! "logic") in
  let t2 :=
    (t ++ [Call_fetch_rss_news keyword start_date end_date logic])%list in
  match fetch_rss_news keyword start_date end_date logic with
  | inl e => get_news_failed e t2
  | inr [] => (inr (jsonify (NewsBody true 0 [] []) 200), t2)
  | inr news_list =>
      match for_each (annotate sentiments) news_list t2 with
      | (inl e, t3) => get_news_failed e t3
      | (inr news_list', t3) =>
          match for_each (fun item => getitem item "來源")
                         news_list' t3 with
          | (inl e, t4) => get_news_failed e t4
          | (inr sources, t4) =>
              (inr (jsonify (NewsBody true (length news_list')
                               news_list'
                               (most_common (Counter sources))) 200),
               t4)
          end
      end
  end.
Proof.
  intros Hrange. rewrite get_news_run.
  pose proof (date_range_trace strptime w (args req !! "start_date")
                (args req !! "end_date") t) as Ht.
  destruct (date_range _ _ _ _ _) as [r1 t1]. cbn [fst snd] in *.
  by subst r1 t1.
Qed.

(** X1: when both dates are given and parse, the fetcher is called with
    the two parsed dates, whatever the clock shows. *)
Theorem get_news_explicit_window (w : world) (req : request) (t : trace)
    (start_date_str end_date_str : string) (s e : datetime) :
  args req !! "start_date" = Some start_date_str ->
  args req !! "end_date" = Some end_date_str ->
  start_date_str <> "" -> end_date_str <> "" ->
  strptime start_date_str "%Y-%m-%d" = inr s ->
  strptime end_date_str "%Y-%m-%d" = inr e ->
  fetch_calls (get_news fetch_rss_news sentiments strptime w req t).2 =
  (fetch_calls t ++
   [(default "台灣" (args req !! "keyword"), date_of s, date_of e,
     default "OR" (args req !! "logic"))])%list.
Proof.
  intros Ha Hb Hs He Hps Hpe.
  rewrite get_news_fetch_calls, Ha, Hb.
  by rewrite (date_range_explicit w _ _ s e t).
Qed.

(** X2: when both dates are given and one of them does not parse, the
    handler answers 500 with the message of the parser, and the fetcher is
    not called. *)
Theorem get_news_malformed_date (w : world) (req : request) (t : trace)
    (start_date_str end_date_str : string) (ex : exn) :
  args req !! "start_date" = Some start_date_str ->
  args req !! "end_date" = Some end_date_str ->
  start_date_str <> "" -> end_date_str <> "" ->
  strptime start_date_str "%Y-%m-%d" = inl ex \/
    (exists s, strptime start_date_str "%Y-%m-%d" = inr s /\
               strptime end_date_str "%Y-%m-%d" = inl ex) ->
  get_news fetch_rss_news sentiments strptime w req t =
  (inr (jsonify (ErrorBody false (str ex)) 500),
   (t ++ [Print ("API 錯誤: " ++ str ex)])%list).
Proof.
  intros Ha Hb Hs He Hparse. rewrite get_news_run, Ha, Hb.
  by rewrite (date_range_malformed w _ _ ex t).
Qed.

(** X3: a date parameter that is there but empty counts as missing: the
    window is the default one, whatever the other date says. *)
Theorem get_news_blank_date (w : world) (req : request) (t : trace) :
  args req !! "start_date" = Some "" \/ args req !! "end_date" = Some "" ->
  (7 < toordinal (today w) <= MAXORDINAL)%Z ->
  fetch_calls (get_news fetch_rss_news sentiments strptime w req t).2 =
  (fetch_calls t ++
   [(default "台灣" (args req !! "keyword"),
     Date (toordinal (today w) - 7), today w,
     default "OR" (args req !! "logic"))])%list.
Proof.
  intros Hblank Hclock. rewrite get_news_fetch_calls.
  rewrite date_range_defaulted; [done| |done].
  destruct Hblank as [-> | ->]; [done|]. apply andb_false_r.
Qed.

(** X4: a keyword and a logic given in the query reach the fetcher as they
    are, empty or not, one of AND and OR or not. *)
Theorem get_news_given_keyword_logic (w : world) (req : request)
    (t : trace) (keyword logic : string) (start_date end_date : date) :
  args req !! "keyword" = Some keyword ->
  args req !! "logic" = Some logic ->
  (date_range strptime w (args req !! "start_date")
              (args req !! "end_date") t).1 = inr (start_date, end_date) ->
  fetch_calls (get_news fetch_rss_news sentiments strptime w req t).2 =
  (fetch_calls t ++ [(keyword, start_date, end_date, logic)])%list.
Proof.
  intros Hk Hl Hrange. by rewrite get_news_fetch_calls, Hrange, Hk, Hl.
Qed.

(** X5: when the fetcher raises, the handler answers 500 with the message
    of the exception; no title is scored. *)
Theorem get_news_fetch_raises (w : world) (req : request) (t : trace)
    (start_date end_date : date) (ex : exn) :
  (date_range strptime w (args req !! "start_date")
              (args req !! "end_date") t).1 = inr (start_date, end_date) ->
  fetch_rss_news (default "台灣" (args req !! "keyword"))
                 start_date end_date
                 (default "OR" (args req !! "logic")) = inl ex ->
  get_news fetch_rss_news sentiments strptime w req t =
  (inr (jsonify (ErrorBody false (str ex)) 500),
   (t ++ [Call_fetch_rss_news (default "台灣" (args req !! "keyword"))
            start_date end_date (default "OR" (args req !! "logic"));
          Print ("API 錯誤: " ++ str ex)])%list).
Proof.
  intros Hrange Hfetch. rewrite (get_news_run_from_range _ _ _ _ _ Hrange).
  cbv zeta. rewrite Hfetch. unfold get_news_failed.
  by rewrite <- app_assoc.
Qed.

(** X6: when the fetcher finds nothing, the answer is the payload with
    count 0, no data and empty stats, and [SnowNLP] is not called. *)
Theorem get_news_no_news (w : world) (req : request) (t : trace)
    (start_date end_date : date) :
  (date_range strptime w (args req !! "start_date")
              (args req !! "end_date") t).1 = inr (start_date, end_date) ->
  fetch_rss_news (default "台灣" (args req !! "keyword"))
                 start_date end_date
                 (default "OR" (args req !! "logic")) = inr [] ->
  get_news fetch_rss_news sentiments strptime w req t =
  (inr (jsonify (NewsBody true 0 [] []) 200),
   (t ++ [Call_fetch_rss_news (default "台灣" (args req !! "keyword"))
            start_date end_date (default "OR" (args req !! "logic"))])%list).
Proof.
  intros Hrange Hfetch. rewrite (get_news_run_from_range _ _ _ _ _ Hrange).
  cbv zeta. by rewrite Hfetch.
Qed.

(** *** The calls to [SnowNLP] *)

Lemma annotated_scorable (news_list data : list article) :
  Forall2 (annotated sentiments) news_list data ->
  Forall (scorable sentiments) news_list.
Proof.
  induction 1 as [|item item' news_list data Hitem _ IH]; constructor;
    [|done].
  destruct Hitem as (title & score & Ht & Hs & _). by exists title, score.
Qed.

Lemma scorable_titles_of_length (news_list : list article) :
  Forall (scorable sentiments) news_list ->
  length (titles_of news_list) = length news_list.
Proof.
  unfold titles_of.
  induction 1 as [|item l (title & score & Ht & _) _ IH]; [done|].
  cbn [omap list_omap]. rewrite Ht. simpl. by rewrite IH.
Qed.

Lemma scored_titles_app (t1 t2 : trace) :
  scored_titles (t1 ++ t2)%list = (scored_titles t1 ++ scored_titles t2)%list.
Proof. apply omap_app. Qed.

Lemma scored_titles_SnowNLP (titles : list string) :
  scored_titles (Call_SnowNLP <$> titles) = titles.
Proof.
  induction titles as [|x titles IH]; [done|].
  rewrite fmap_cons.
  change (x :: scored_titles (Call_SnowNLP <$> titles) = x :: titles).
  by rewrite IH.
Qed.

(** X7: on the way to a payload the handler calls the fetcher once and then
    [SnowNLP] once for each article of [data], in their order, on its
    title; it does nothing else. *)
Theorem get_news_calls_of_success (w : world) (req : request)
    (t t' : trace) (success : bool) (count : nat) (data : list article)
    (stats : counter) (status : Z) :
  get_news fetch_rss_news sentiments strptime w req t =
    (inr (jsonify (NewsBody success count data stats) status), t') ->
  length (titles_of data) = length data /\
  exists start_date end_date,
    t' = (t ++
          Call_fetch_rss_news (default "台灣" (args req !! "keyword"))
            start_date end_date (default "OR" (args req !! "logic")) ::
          (Call_SnowNLP <$> titles_of data))%list.
Proof.
  intros Hrun.
  destruct (get_news_inr_NewsBody _ _ _ _ _ _ _ _ _ _ _ _ Hrun)
    as (_ & _ & _ & _ & _ & s & e & news_list & Hrange & Hfetch & Hall).
  pose proof (annotated_scorable _ _ Hall) as Hscorable.
  rewrite (annotated_titles_of _ _ Hall).
  split.
  { rewrite scorable_titles_of_length by done. by eapply Forall2_length. }
  exists s, e. revert Hrun.
  rewrite (get_news_run_from_range _ _ _ _ _ Hrange). cbv zeta.
  rewrite Hfetch. destruct news_list as [|item news_list].
  { intros [= _ _ _ _ _ <-]. done. }
  destruct (for_each_annotate_scorable (item :: news_list)
              (t ++ [Call_fetch_rss_news
                       (default "台灣" (args req !! "keyword")) s e
                       (default "OR" (args req !! "logic"))])%list Hscorable)
    as (l' & -> & _).
  match goal with
  | |- context [for_each ?f l' ?t3] =>
      pose proof (for_each_getitem_trace "來源" l' t3) as Hsrc;
      destruct (for_each f l' t3) as [[ex|sources] t4]
  end; [done|]. cbn [snd] in Hsrc. subst t4.
  intros [= _ _ _ _ _ <-]. by rewrite <- app_assoc.
Qed.

(** X8: the loop stops at the first article whose title cannot be scored:
    the answer is 500 with the message of that failure, the titles before
    it and its own have been given to [SnowNLP], those after it have not. *)
Theorem get_news_stops_at_unscorable (w : world) (req : request)
    (t : trace) (start_date end_date : date) (l1 l2 : list article)
    (item : article) (title : string) (ex : exn) :
  (date_range strptime w (args req !! "start_date")
              (args req !! "end_date") t).1 = inr (start_date, end_date) ->
  fetch_rss_news (default "台灣" (args req !! "keyword"))
                 start_date end_date
                 (default "OR" (args req !! "logic")) =
    inr (l1 ++ item :: l2)%list ->
  Forall (scorable sentiments) l1 ->
  item !! "標題" = Some title ->
  sentiments title = inl ex ->
  exists t',
    get_news fetch_rss_news sentiments strptime w req t =
      (inr (jsonify (ErrorBody false (str ex)) 500), t') /\
    scored_titles t' = (scored_titles t ++ titles_of l1 ++ [title])%list.
Proof.
  intros Hrange Hfetch Hl1 Htitle Hscore.
  rewrite (get_news_run_from_range _ _ _ _ _ Hrange). cbv zeta.
  rewrite Hfetch.
  rewrite (for_each_annotate_no_score l1 l2 item title ex _ Hl1 Htitle Hscore).
  destruct (l1 ++ item :: l2)%list eqn:Hl; [by destruct l1|].
  unfold get_news_failed. eexists. split; [done|].
  rewrite !scored_titles_app, scored_titles_SnowNLP. simpl.
  by rewrite !app_nil_r.
Qed.

(** X9: an article without a title makes the handler answer 500 with the
    message '標題' (the [KeyError] of the missing key); the titles before it
    have been scored, none after it. *)
Theorem get_news_missing_title (w : world) (req : request)
    (t : trace) (start_date end_date : date) (l1 l2 : list article)
    (item : article) :
  (date_range strptime w (args req !! "start_date")
              (args req !! "end_date") t).1 = inr (start_date, end_date) ->
  fetch_rss_news (default "台灣" (args req !! "keyword"))
                 start_date end_date
                 (default "OR" (args req !! "logic")) =
    inr (l1 ++ item :: l2)%list ->
  Forall (scorable sentiments) l1 ->
  item !! "標題" = None ->
  exists t',
    get_news fetch_rss_news sentiments strptime w req t =
      (inr (jsonify (ErrorBody false "'標題'") 500), t') /\
    scored_titles t' = (scored_titles t ++ titles_of l1)%list.
Proof.
  intros Hrange Hfetch Hl1 Htitle.
  rewrite (get_news_run_from_range _ _ _ _ _ Hrange). cbv zeta.
  rewrite Hfetch.
  rewrite (for_each_annotate_no_title l1 l2 item _ Hl1 Htitle).
  destruct (l1 ++ item :: l2)%list eqn:Hl; [by destruct l1|].
  unfold get_news_failed. eexists. split; [done|].
  rewrite !scored_titles_app, scored_titles_SnowNLP. simpl.
  by rewrite !app_nil_r.
Qed.

(** X10: an article without a source is only found after the loop: every
    title has been scored when the handler answers 500 with the message
    '來源'. *)
Theorem get_news_missing_source (w : world) (req : request)
    (t : trace) (start_date end_date : date) (news_list : list article)
    (item : article) :
  (date_range strptime w (args req !! "start_date")
              (args req !! "end_date") t).1 = inr (start_date, end_date) ->
  fetch_rss_news (default "台灣" (args req !! "keyword"))
                 start_date end_date
                 (default "OR" (args req !! "logic")) = inr news_list ->
  Forall (scorable sentiments) news_list ->
  item ∈ news_list ->
  item !! "來源" = None ->
  exists t',
    get_news fetch_rss_news sentiments strptime w req t =
      (inr (jsonify (ErrorBody false "'來源'") 500), t') /\
    scored_titles t' = (scored_titles t ++ titles_of news_list)%list.
Proof.
  intros Hrange Hfetch Hall Hin Hsource.
  rewrite (get_news_run_from_range _ _ _ _ _ Hrange). cbv zeta.
  rewrite Hfetch.
  destruct (for_each_annotate_scorable news_list
              (t ++ [Call_fetch_rss_news
                       (default "台灣" (args req !! "keyword"))
                       start_date end_date
                       (default "OR" (args req !! "logic"))])%list Hall)
    as (l' & -> & Hl').
  destruct news_list as [|item0 news_list]; [by apply elem_of_nil in Hin|].
  assert (exists item', item' ∈ l' /\ item' !! "來源" = None)
    as (item' & Hin' & Hsource').
  { apply list_elem_of_lookup in Hin as [i Hi].
    destruct (Forall2_lookup_l _ _ _ _ _ Hl' Hi) as (item' & Hi' & Hitem).
    exists item'. split; [by eapply list_elem_of_lookup_2|].
    apply annotated_fields in Hitem as [_ Hitem].
    by rewrite Hitem. }
  rewrite (for_each_getitem_raises "來源" l' item' _ Hin' Hsource').
  unfold get_news_failed. eexists. split; [done|].
  rewrite !scored_titles_app, scored_titles_SnowNLP. simpl.
  by rewrite !app_nil_r.
Qed.

(** *** The payload *)

(** X11: each article of [data] is the article the fetcher returned at the
    same place, with [情感] set to one of the three labels (over whatever
    was there) and every other field untouched. *)
Theorem get_news_data_fields (w : world) (req : request)
    (t t' : trace) (success : bool) (count : nat) (data : list article)
    (stats : counter) (status : Z) :
  get_news fetch_rss_news sentiments strptime w req t =
    (inr (jsonify (NewsBody success count data stats) status), t') ->
  exists start_date end_date news_list,
    fetch_rss_news (default "台灣" (args req !! "keyword"))
                   start_date end_date
                   (default "OR" (args req !! "logic")) = inr news_list /\
    Forall2 (fun item item' : article =>
               (exists c, item' !! "情感" = Some (label c)) /\
               (forall key, key <> "情感" -> item' !! key = item !! key))
            news_list data.
Proof.
  intros (_ & _ & _ & _ & _ & s & e & news_list & _ & Hfetch & Hall)
    %get_news_inr_NewsBody.
  exists s, e, news_list. split; [done|].
  eapply Forall2_impl; [exact Hall|]. apply annotated_fields.
Qed.

Lemma occurrences_pos (x : string) (l : list string) :
  x ∈ l -> (1 <= occurrences x l)%nat.
Proof.
  unfold occurrences. intros Hx.
  assert (x ∈ filter (fun y => y = x) l) as Hin
    by by apply list_elem_of_filter.
  destruct (filter _ l); [by apply elem_of_nil in Hin|simpl; lia].
Qed.

Lemma length_le_sum_values (c : counter) :
  Forall (fun entry => (1 <= entry.2)%nat) c ->
  (length c <= sum_values c)%nat.
Proof.
  unfold sum_values. induction 1 as [|entry c Hentry _ IH]; simpl; lia.
Qed.

(** X12: the keys of [stats] are the sources of [data], each one once;
    every count is at least 1; there are at most [count] entries; and no
    entry has a larger count than the first one. *)
Theorem get_news_stats_keys (w : world) (req : request)
    (t t' : trace) (success : bool) (count : nat) (data : list article)
    (stats : counter) (status : Z) :
  get_news fetch_rss_news sentiments strptime w req t =
    (inr (jsonify (NewsBody success count data stats) status), t') ->
  NoDup stats.*1 /\
  (forall source, source ∈ stats.*1 <-> source ∈ sources_of data) /\
  Forall (fun entry => (1 <= entry.2)%nat) stats /\
  (length stats <= count)%nat /\
  (forall first rest entry,
     stats = first :: rest -> entry ∈ rest -> (entry.2 <= first.2)%nat).
Proof.
  intros (_ & _ & -> & Hlen & -> & _)%get_news_inr_NewsBody.
  assert (Hpos : Forall (fun entry : string * nat => (1 <= entry.2)%nat)
                   (most_common (Counter (sources_of data)))).
  { apply Forall_forall. intros [k n] [-> Hk]%most_common_Counter_elem_of.
    by apply occurrences_pos. }
  split_and!.
  - rewrite most_common_perm. apply Counter_keys_NoDup.
  - intros source. rewrite most_common_perm. apply Counter_keys_elem_of.
  - done.
  - etrans; [by apply length_le_sum_values|].
    by rewrite sum_values_most_common, sum_values_Counter, Hlen.
  - intros first rest entry Hstats Hentry.
    pose proof (most_common_sorted (Counter (sources_of data))) as Hsorted.
    rewrite Hstats in Hsorted. apply StronglySorted_inv in Hsorted as [_ H].
    by eapply Forall_forall in H.
Qed.

Lemma printed_app (t1 t2 : trace) :
  printed (t1 ++ t2)%list = (printed t1 ++ printed t2)%list.
Proof. apply omap_app. Qed.

Lemma printed_SnowNLP (titles : list string) :
  printed (Call_SnowNLP <$> titles) = [].
Proof. by induction titles. Qed.

(** X13: the handler answers 200 with a payload whose [success] is true, or
    500 with an error object whose [success] is false, and nothing else (a
    malformed query is a 500 too, never a 400).  It prints one line exactly
    when it answers 500, and the line carries the message of the error
    object. *)
Theorem get_news_status (w : world) (req : request) (t : trace) :
  exists b status t',
    get_news fetch_rss_news sentiments strptime w req t =
      (inr (jsonify b status), t') /\
    ((status = 200%Z /\
      (exists count data stats, b = NewsBody true count data stats) /\
      printed t' = printed t) \/
     (status = 500%Z /\
      exists message,
        b = ErrorBody false message /\
        printed t' = (printed t ++ [("API 錯誤: " ++ message)%string])%list)).
Proof.
  assert (Hfail : forall e t0,
            printed t0 = printed t ->
            exists b status t',
              get_news_failed e t0 = (inr (jsonify b status), t') /\
              ((status = 200%Z /\
                (exists count data stats, b = NewsBody true count data stats) /\
                printed t' = printed t) \/
               (status = 500%Z /\
                exists message,
                  b = ErrorBody false message /\
                  printed t' =
                    (printed t ++ [("API 錯誤: " ++ message)%string])%list))).
  { intros e t0 Ht0. unfold get_news_failed. eexists _, _, _.
    split; [done|]. right. split; [done|]. eexists. split; [done|].
    by rewrite printed_app, Ht0. }
  rewrite get_news_run. cbv zeta.
  pose proof (date_range_trace strptime w (args req !! "start_date")
                (args req !! "end_date") t) as Ht.
  destruct (date_range _ _ _ _ _) as [[e|[start_date end_date]] t1];
    cbn [snd] in Ht; subst t1.
  { by apply Hfail. }
  destruct (fetch_rss_news _ _ _ _) as [e|news_list].
  { apply Hfail. rewrite printed_app. simpl. by rewrite app_nil_r. }
  destruct news_list as [|item news_list].
  { eexists _, _, _. split; [done|]. left. split_and!; [done|by eauto|].
    rewrite printed_app. simpl. by rewrite app_nil_r. }
  match goal with
  | |- context [for_each (annotate sentiments) ?l ?t2] =>
      destruct (for_each_annotate_trace sentiments l t2) as [titles Htitles];
      destruct (for_each (annotate sentiments) l t2)
        as [[e|news_list'] t3]
  end; cbn [snd] in Htitles; subst t3.
  { apply Hfail. rewrite !printed_app, printed_SnowNLP. simpl.
    by rewrite !app_nil_r. }
  match goal with
  | |- context [for_each ?f ?l ?t3] =>
      pose proof (for_each_getitem_trace "來源" l t3) as Hsrc;
      destruct (for_each f l t3) as [[e|sources] t4]
  end; cbn [snd] in Hsrc; subst t4.
  { apply Hfail. rewrite !printed_app, printed_SnowNLP. simpl.
    by rewrite !app_nil_r. }
  eexists _, _, _. split; [done|]. left. split_and!; [done|by eauto|].
  rewrite !printed_app, printed_SnowNLP. simpl. by rewrite !app_nil_r.
Qed.

Lemma omap_length_le {A B} (f : A -> option B) (l : list A) :
  (length (omap f l) <= length l)%nat.
Proof.
  induction l as [|x l IH]; [done|]. cbn [omap list_omap].
  destruct (f x); simpl; lia.
Qed.

Lemma omap_length_Forall {A B} (f : A -> option B) (l : list A) :
  length (omap f l) = length l -> Forall (fun x => is_Some (f x)) l.
Proof.
  induction l as [|x l IH]; [constructor|]. cbn [omap list_omap].
  pose proof (omap_length_le f l) as Hle.
  destruct (f x) as [y|] eqn:Hx; simpl; [|lia].
  intros [= Hlen]. constructor; [by rewrite Hx|by apply IH].
Qed.

(** X14: the handler answers with the payload exactly when the date range
    can be computed, the fetcher returns, and every article it returns has
    a source and a title that can be scored. *)
Theorem get_news_ok_iff (w : world) (req : request) (t : trace) :
  (exists count data stats t',
     get_news fetch_rss_news sentiments strptime w req t =
       (inr (jsonify (NewsBody true count data stats) 200), t')) <->
  (exists start_date end_date news_list,
     (date_range strptime w (args req !! "start_date")
                 (args req !! "end_date") t).1 =
       inr (start_date, end_date) /\
     fetch_rss_news (default "台灣" (args req !! "keyword"))
                    start_date end_date
                    (default "OR" (args req !! "logic")) = inr news_list /\
     Forall (fun item : article =>
               is_Some (item !! "來源") /\ scorable sentiments item)
            news_list).
Proof.
  split.
  - intros (count & data & stats & t' & Hrun).
    apply get_news_inr_NewsBody in Hrun
      as (_ & _ & _ & Hlen & _ & s & e & news_list & Hrange & Hfetch & Hall).
    exists s, e, news_list. split_and!; [done..|].
    rewrite (annotated_sources_of _ _ _ Hall) in Hlen.
    rewrite <- (Forall2_length _ _ _ Hall) in Hlen.
    apply omap_length_Forall in Hlen.
    apply annotated_scorable in Hall.
    apply Forall_and. done.
  - intros (s & e & news_list & Hrange & Hfetch & Hall).
    destruct (get_news_succeeds fetch_rss_news sentiments strptime
                w req t s e news_list Hrange Hfetch Hall)
      as (data & t' & Hrun & _).
    by eexists _, _, _, _.
Qed.

(** ** More on the export handler *)

Lemma nonempty_list_spec (v : json) :
  negb (truthy v) || negb (isinstance_list v) = false <-> nonempty_list v.
Proof.
  unfold nonempty_list. split.
  - destruct v as [| | | | |[|row rows]|]; cbn [isinstance_list negb];
      rewrite ?orb_true_r; try done.
    intros _. by eexists.
  - by intros ([|row rows] & -> & Hrows).
Qed.

(** X16: when [request.get_json()] raises, or when writing the workbook
    raises, the handler answers 500 with the message of the exception and
    prints it; in the first case the workbook is not even started. *)
Theorem download_selected_raises (w : world) (req : request) (t : trace)
    (ex : exn) :
  (get_json req = inl ex ->
   download_selected to_excel w req t =
     (inr (jsonify (ErrorBody false (str ex)) 500),
      (t ++ [Print ("下載選中新聞時發生錯誤: " ++ str ex)%string])%list)) /\
  (forall selected_news,
     get_json req = inr selected_news ->
     nonempty_list selected_news ->
     to_excel selected_news "Selected News" = inl ex ->
     download_selected to_excel w req t =
       (inr (jsonify (ErrorBody false (str ex)) 500),
        (t ++ [Call_to_excel selected_news "Selected News";
               Print ("下載選中新聞時發生錯誤: " ++ str ex)%string])%list)).
Proof.
  split.
  - intros Hbody. by rewrite download_selected_run, Hbody.
  - intros v Hbody Hv%nonempty_list_spec Hxlsx.
    rewrite download_selected_run, Hbody, Hv. cbv zeta. rewrite Hxlsx.
    unfold download_selected_failed. by rewrite <- app_assoc.
Qed.

(** X17: the status of the answer tells what happened: 200 exactly when the
    body is a non-empty list and the workbook was written, 400 exactly when
    [get_json] returned something else than a non-empty list, 500 exactly
    when [get_json] or the writing of the workbook raised. *)
Theorem download_selected_status (w : world) (req : request) (t : trace) :
  exists r t',
    download_selected to_excel w req t = (inr r, t') /\
    (status_code r = Some 200%Z <->
     exists selected_news output,
       get_json req = inr selected_news /\ nonempty_list selected_news /\
       to_excel selected_news "Selected News" = inr output) /\
    (status_code r = Some 400%Z <->
     exists selected_news,
       get_json req = inr selected_news /\ ~ nonempty_list selected_news) /\
    (status_code r = Some 500%Z <->
     (exists ex, get_json req = inl ex) \/
     (exists selected_news ex,
        get_json req = inr selected_news /\ nonempty_list selected_news /\
        to_excel selected_news "Selected News" = inl ex)).
Proof.
  rewrite download_selected_run. unfold download_selected_failed.
  destruct (get_json req) as [ex|v] eqn:Hbody.
  { eexists _, _. split; [done|]. simpl. split_and!; split; try done.
    - by intros (? & ? & ? & _).
    - by intros (? & ? & _).
    - intros _. left. by eexists. }
  destruct (negb (truthy v) || negb (isinstance_list v)) eqn:Hv.
  { assert (~ nonempty_list v) as Hnot.
    { intros H%nonempty_list_spec. congruence. }
    eexists _, _. split; [done|]. simpl. split_and!; split; try done.
    - intros (? & ? & [= <-] & ? & _). done.
    - intros _. by exists v.
    - intros [[? ?]|(? & ? & [= <-] & ? & _)]; done. }
  apply nonempty_list_spec in Hv. cbv zeta.
  destruct (to_excel v "Selected News") as [ex|output] eqn:Hxlsx.
  - eexists _, _. split; [done|]. simpl. split_and!; split; try done.
    + intros (? & ? & [= <-] & _ & ?). congruence.
    + intros (? & [= <-] & ?). done.
    + intros _. right. by exists v, ex.
  - eexists _, _. split; [done|]. simpl. split_and!; split; try done.
    + intros _. by exists v, output.
    + intros (? & [= <-] & ?). done.
    + intros [[? ?]|(? & ? & [= <-] & _ & ?)]; congruence.
Qed.

End app_more.

(** ** The handlers on the sample deployment *)

Example sample_get_news :
  get_news Sample.fetch_rss_news Sample.sentiments Sample.strptime
           Sample.w Sample.req_empty [] =
  (inr (jsonify (NewsBody true 5 Sample.data Sample.stats) 200),
   Sample.calls).
Proof. by vm_compute. Qed.

Example sample_get_news_untitled :
  get_news Sample.fetch_rss_news_untitled Sample.sentiments Sample.strptime
           Sample.w Sample.req_empty [] =
  (inr (jsonify (ErrorBody false "float division by zero") 500),
   [Call_fetch_rss_news "台灣" (Date 738943) (Date 738950) "OR";
    Call_SnowNLP "good news"; Call_SnowNLP "";
    Print "API 錯誤: float division by zero"]).
Proof. by vm_compute. Qed.

Example sample_get_json_raises :
  download_selected Sample.to_excel Sample.w
    (Request ∅ (inl (Raised "400 Bad Request"))) [] =
  (inr (jsonify (ErrorBody false "400 Bad Request") 500),
   [Print "下載選中新聞時發生錯誤: 400 Bad Request"]).
Proof. by vm_compute. Qed.

Lemma classify_sentiment_total_witness :
  classify_sentiment (3 # 2) = label Positive /\
  classify_sentiment (-1 # 1) = label Negative.
Proof.
  split.
  - apply (classify_sentiment_total (3 # 2)). reflexivity.
  - apply (classify_sentiment_total (-1 # 1)). reflexivity.
Defined.

Lemma get_news_default_window_witness :
  fetch_calls
    (serve_news Sample.fetch_rss_news Sample.sentiments Sample.strptime
       [(Sample.w, Sample.req_empty); (Sample.w_next, Sample.req_start_only)]
       []).2 =
  [("台灣", Date 738943, Date 738950, "OR");
   ("地震", Date 738944, Date 738951, "AND")].
Proof.
  apply (get_news_default_window Sample.fetch_rss_news Sample.sentiments
           Sample.strptime
           [(Sample.w, Sample.req_empty);
            (Sample.w_next, Sample.req_start_only)]).
  repeat constructor; vm_compute; auto; discriminate.
Defined.

(** C8 as the specification words it does not hold: with no [keyword] in
    the query the fetcher is not given the string "Taiwan". *)
Lemma get_news_default_keyword_not_Taiwan :
  ~ (forall fetch_rss_news sentiments strptime (w : world) (req : request)
       (t : trace) (start_date end_date : date),
       (date_range strptime w (args req !! "start_date")
                   (args req !! "end_date") t).1 =
         inr (start_date, end_date) ->
       exists keyword logic,
         fetch_calls (get_news fetch_rss_news sentiments strptime w req t).2 =
           (fetch_calls t ++ [(keyword, start_date, end_date, logic)])%list /\
         (args req !! "keyword" = None -> keyword = "Taiwan") /\
         (args req !! "logic" = None -> logic = "OR")).
Proof.
  intros H.
  destruct (H Sample.fetch_rss_news Sample.sentiments Sample.strptime
              Sample.w Sample.req_empty [] (Date 738943) (Date 738950)
              eq_refl) as (keyword & logic & Hcalls & Hkeyword & _).
  specialize (Hkeyword eq_refl). subst keyword.
  vm_compute in Hcalls. discriminate Hcalls.
Qed.

(** C4 as the specification words it does not hold: a request whose body
    Flask cannot decode is a request without a non-empty list, [get_json]
    raises inside the [try], and the [except] clause answers 500. *)
Lemma download_selected_undecodable_body_500 :
  ~ (forall to_excel (w : world) (req : request) (t : trace),
       (forall selected_news,
          get_json req = inr selected_news ->
          ~ nonempty_list selected_news) ->
       exists message t',
         download_selected to_excel w req t =
           (inr (jsonify (ErrorBody false message) 400), t')).
Proof.
  intros H.
  destruct (H Sample.to_excel Sample.w Cases.req_no_json [])
    as (message & t' & Hrun).
  - intros selected_news Hbody. discriminate Hbody.
  - vm_compute in Hrun. discriminate Hrun.
Qed.

Lemma get_news_default_keyword_logic_witness :
  exists keyword logic,
    fetch_calls
      (get_news Sample.fetch_rss_news Sample.sentiments Sample.strptime
                Sample.w Sample.req_empty []).2 =
      [(keyword, Date 738943, Date 738950, logic)] /\
    (args Sample.req_empty !! "keyword" = None -> keyword = "台灣") /\
    (args Sample.req_empty !! "logic" = None -> logic = "OR").
Proof.
  apply (get_news_default_keyword_logic Sample.fetch_rss_news
           Sample.sentiments Sample.strptime Sample.w Sample.req_empty []
           (Date 738943) (Date 738950)).
  reflexivity.
Defined.

Lemma get_news_stats_sum_to_count_witness :
  sum_values Sample.stats = 5%nat /\ 5%nat = length Sample.data /\
  forall source n,
    (source, n) ∈ Sample.stats <->
    n = occurrences source (sources_of Sample.data) /\
    source ∈ sources_of Sample.data.
Proof.
  apply (get_news_stats_sum_to_count Sample.fetch_rss_news Sample.sentiments
           Sample.strptime Sample.w Sample.req_empty [] Sample.calls true 5%nat
           Sample.data Sample.stats 200%Z).
  - vm_compute. reflexivity.
  - discriminate.
Defined.

Lemma get_news_stats_order_witness :
  (2 <= 2)%nat /\
  (2%nat = 2%nat ->
   exists i j,
     first_index "CNA" (sources_of Sample.data) = Some i /\
     first_index "BBC" (sources_of Sample.data) = Some j /\ (i < j)%nat).
Proof.
  apply (get_news_stats_order Sample.fetch_rss_news Sample.sentiments
           Sample.strptime Sample.w Sample.req_empty [] Sample.calls true 5%nat
           Sample.data Sample.stats 200%Z "CNA" "BBC" 2%nat 2%nat).
  - vm_compute. reflexivity.
  - exists [], [], [("PTS", 1%nat)]. reflexivity.
Defined.

Lemma download_selected_bad_request_witness :
  exists message,
    download_selected Sample.to_excel Sample.w Sample.req_start_only [] =
      (inr (jsonify (ErrorBody false message) 400), []) /\
    status_code (jsonify (ErrorBody false message) 400) <> Some 500%Z.
Proof.
  apply (download_selected_bad_request Sample.to_excel Sample.w
           Sample.req_start_only [] (JArr [])).
  - reflexivity.
  - right; right. reflexivity.
Defined.

Lemma download_selected_attachment_witness :
  download_selected Sample.to_excel Sample.w Sample.req_rows [] =
    (inr (send_file [Byte.x50; Byte.x4b]
            "application/vnd.openxmlformats-officedocument.spreadsheetml.sheet"
            true "selected_news_20240305.xlsx"),
     [Call_to_excel
        (JArr [JObj [("title", JStr "A"); ("source", JStr "X")]])
        "Selected News"]) /\
  status_code
    (send_file [Byte.x50; Byte.x4b]
       "application/vnd.openxmlformats-officedocument.spreadsheetml.sheet"
       true "selected_news_20240305.xlsx") = Some 200%Z.
Proof.
  apply (download_selected_attachment Sample.to_excel Sample.w
           Sample.req_rows []
           [JObj [("title", JStr "A"); ("source", JStr "X")]]
           [Byte.x50; Byte.x4b]).
  - reflexivity.
  - discriminate.
  - reflexivity.
Defined.

Lemma index_dist_folder_witness :
  index Sample.app_dir Sample.w =
    str_response
      "前端檔案尚未建置 (frontend/dist not found)。請在 'frontend' 目錄下執行 'npm run build'。"
      404 /\
  index Sample.app_dir Sample.w_next =
    send_from_directory "/srv/klim-searcher/frontend/dist" "index.html".
Proof.
  split.
  - apply (index_dist_folder Sample.app_dir Sample.w). reflexivity.
  - apply (index_dist_folder Sample.app_dir Sample.w_next). reflexivity.
Defined.

Lemma handlers_all_or_nothing_witness :
  exists message t',
    get_news Sample.fetch_rss_news_untitled Sample.sentiments Sample.strptime
             Sample.w Sample.req_empty [] =
      (inr (jsonify (ErrorBody false message) 500), t').
Proof.
  apply (handlers_all_or_nothing Sample.fetch_rss_news_untitled
           Sample.sentiments Sample.strptime Sample.to_excel
           Sample.w Sample.req_empty [])
    with (start_date := Date 738943) (end_date := Date 738950)
         (news_list := [Sample.news "CNA" "good news"; Sample.news "BBC" "";
                        Sample.news "PTS" "rain"])
         (item := Sample.news "BBC" "") (title := "")
         (e := Raised "float division by zero").
  - reflexivity.
  - reflexivity.
  - apply list_elem_of_further, list_elem_of_here.
  - reflexivity.
  - reflexivity.
Defined.

(** ** The failure paths on concrete requests *)

Lemma classify_sentiment_monotone_witness :
  exists c c',
    classify_sentiment (1 # 10) = label c /\
    classify_sentiment (9 # 10) = label c' /\ (rank c <= rank c')%Z.
Proof. apply (classify_sentiment_monotone (1 # 10) (9 # 10)). by vm_compute. Defined.

Lemma get_news_explicit_window_witness :
  fetch_calls
    (get_news Sample.fetch_rss_news Sample.sentiments Cases.strptime
              Sample.w Cases.req_january []).2 =
  [("", Date 738886, Date 738916, "XOR")].
Proof.
  apply (get_news_explicit_window Sample.fetch_rss_news Sample.sentiments
           Cases.strptime Sample.w Cases.req_january []
           "2024-01-01" "2024-01-31"
           (Datetime 2024 1 1 0 0 0) (Datetime 2024 1 31 0 0 0));
    (reflexivity || discriminate).
Defined.

Lemma get_news_malformed_date_witness :
  get_news Sample.fetch_rss_news Sample.sentiments Cases.strptime
           Sample.w Cases.req_bad_date [] =
  (inr (jsonify
          (ErrorBody false
             "time data '31/01/2024' does not match format '%Y-%m-%d'")
          500),
   [Print
      "API 錯誤: time data '31/01/2024' does not match format '%Y-%m-%d'"]).
Proof.
  apply (get_news_malformed_date Sample.fetch_rss_news Sample.sentiments
           Cases.strptime Sample.w Cases.req_bad_date []
           "2024-01-01" "31/01/2024"
           (Raised "time data '31/01/2024' does not match format '%Y-%m-%d'"));
    try (reflexivity || discriminate).
  right. exists (Datetime 2024 1 1 0 0 0). split; reflexivity.
Defined.

Lemma get_news_blank_date_witness :
  fetch_calls
    (get_news Sample.fetch_rss_news Sample.sentiments Cases.strptime
              Sample.w Cases.req_blank_dates []).2 =
  [("台灣", Date 738943, Date 738950, "OR")].
Proof.
  apply (get_news_blank_date Sample.fetch_rss_news Sample.sentiments
           Cases.strptime Sample.w Cases.req_blank_dates []).
  - left. reflexivity.
  - by vm_compute.
Defined.

Lemma get_news_given_keyword_logic_witness :
  fetch_calls
    (get_news Sample.fetch_rss_news Sample.sentiments Cases.strptime
              Sample.w Cases.req_january []).2 =
  [("", Date 738886, Date 738916, "XOR")].
Proof.
  apply (get_news_given_keyword_logic Sample.fetch_rss_news
           Sample.sentiments Cases.strptime Sample.w Cases.req_january []
           "" "XOR" (Date 738886) (Date 738916)); reflexivity.
Defined.

Lemma get_news_fetch_raises_witness :
  get_news Cases.fetch_down Sample.sentiments Sample.strptime
           Sample.w Sample.req_empty [] =
  (inr (jsonify (ErrorBody false "HTTP Error 503") 500),
   [Call_fetch_rss_news "台灣" (Date 738943) (Date 738950) "OR";
    Print "API 錯誤: HTTP Error 503"]).
Proof.
  apply (get_news_fetch_raises Cases.fetch_down Sample.sentiments
           Sample.strptime Sample.w Sample.req_empty []
           (Date 738943) (Date 738950) (Raised "HTTP Error 503"));
    reflexivity.
Defined.

Lemma get_news_no_news_witness :
  get_news Cases.fetch_nothing Sample.sentiments Sample.strptime
           Sample.w Sample.req_empty [] =
  (inr (jsonify (NewsBody true 0 [] []) 200),
   [Call_fetch_rss_news "台灣" (Date 738943) (Date 738950) "OR"]).
Proof.
  apply (get_news_no_news Cases.fetch_nothing Sample.sentiments
           Sample.strptime Sample.w Sample.req_empty []
           (Date 738943) (Date 738950)); reflexivity.
Defined.

Lemma get_news_calls_of_success_witness :
  length (titles_of Sample.data) = length Sample.data /\
  exists start_date end_date,
    Sample.calls =
    ([] ++ Call_fetch_rss_news "台灣" start_date end_date "OR" ::
       (Call_SnowNLP <$> titles_of Sample.data))%list.
Proof.
  apply (get_news_calls_of_success Sample.fetch_rss_news Sample.sentiments
           Sample.strptime Sample.w Sample.req_empty [] Sample.calls
           true 5%nat Sample.data Sample.stats 200%Z).
  by vm_compute.
Defined.

Lemma get_news_stops_at_unscorable_witness :
  exists t',
    get_news Sample.fetch_rss_news_untitled Sample.sentiments
             Sample.strptime Sample.w Sample.req_empty [] =
      (inr (jsonify (ErrorBody false "float division by zero") 500), t') /\
    scored_titles t' = ["good news"; ""].
Proof.
  apply (get_news_stops_at_unscorable Sample.fetch_rss_news_untitled
           Sample.sentiments Sample.strptime Sample.w Sample.req_empty []
           (Date 738943) (Date 738950)
           [Sample.news "CNA" "good news"] [Sample.news "PTS" "rain"]
           (Sample.news "BBC" "") "" (Raised "float division by zero"));
    try reflexivity.
  repeat constructor. exists "good news", (9 # 10). split; reflexivity.
Defined.

Lemma get_news_missing_title_witness :
  exists t',
    get_news Cases.fetch_no_title Sample.sentiments Sample.strptime
             Sample.w Sample.req_empty [] =
      (inr (jsonify (ErrorBody false "'標題'") 500), t') /\
    scored_titles t' = ["good news"].
Proof.
  apply (get_news_missing_title Cases.fetch_no_title Sample.sentiments
           Sample.strptime Sample.w Sample.req_empty []
           (Date 738943) (Date 738950)
           [Sample.news "CNA" "good news"] [Sample.news "PTS" "rain"]
           (<["來源" := "BBC"]> ∅));
    try reflexivity.
  repeat constructor. exists "good news", (9 # 10). split; reflexivity.
Defined.

Lemma get_news_missing_source_witness :
  exists t',
    get_news Cases.fetch_no_source Sample.sentiments Sample.strptime
             Sample.w Sample.req_empty [] =
      (inr (jsonify (ErrorBody false "'來源'") 500), t') /\
    scored_titles t' = ["good news"; "storm"].
Proof.
  destruct (get_news_missing_source Cases.fetch_no_source Sample.sentiments
              Sample.strptime Sample.w Sample.req_empty []
              (Date 738943) (Date 738950)
              [Sample.news "CNA" "good news"; <["標題" := "storm"]> ∅]
              (<["標題" := "storm"]> ∅))
    as (t' & Hrun & Hscored); try reflexivity.
  - repeat constructor.
    + exists "good news", (9 # 10). split; reflexivity.
    + exists "storm", (1 # 10). split; reflexivity.
  - apply list_elem_of_further, list_elem_of_here.
  - exists t'. split; [exact Hrun|exact Hscored].
Defined.

Lemma get_news_data_fields_witness :
  exists start_date end_date news_list,
    Sample.fetch_rss_news "台灣" start_date end_date "OR" = inr news_list /\
    Forall2 (fun item item' : article =>
               (exists c, item' !! "情感" = Some (label c)) /\
               (forall key, key <> "情感" -> item' !! key = item !! key))
            news_list Sample.data.
Proof.
  apply (get_news_data_fields Sample.fetch_rss_news Sample.sentiments
           Sample.strptime Sample.w Sample.req_empty [] Sample.calls
           true 5%nat Sample.data Sample.stats 200%Z).
  by vm_compute.
Defined.

Lemma get_news_stats_keys_witness :
  NoDup Sample.stats.*1 /\
  (forall source,
     source ∈ Sample.stats.*1 <-> source ∈ sources_of Sample.data) /\
  Forall (fun entry => (1 <= entry.2)%nat) Sample.stats /\
  (length Sample.stats <= 5)%nat /\
  (forall first rest entry,
     Sample.stats = first :: rest -> entry ∈ rest ->
     (entry.2 <= first.2)%nat).
Proof.
  apply (get_news_stats_keys Sample.fetch_rss_news Sample.sentiments
           Sample.strptime Sample.w Sample.req_empty [] Sample.calls
           true 5%nat Sample.data Sample.stats 200%Z).
  by vm_compute.
Defined.

Lemma download_selected_raises_witness :
  download_selected Sample.to_excel Sample.w Cases.req_no_json [] =
    (inr (jsonify (ErrorBody false "400 Bad Request") 500),
     [Print "下載選中新聞時發生錯誤: 400 Bad Request"]) /\
  download_selected Cases.to_excel_fails Sample.w Sample.req_rows [] =
    (inr (jsonify (ErrorBody false "No module named 'xlsxwriter'") 500),
     [Call_to_excel
        (JArr [JObj [("title", JStr "A"); ("source", JStr "X")]])
        "Selected News";
      Print "下載選中新聞時發生錯誤: No module named 'xlsxwriter'"]).
Proof.
  split.
  - apply (download_selected_raises Sample.to_excel Sample.w
             Cases.req_no_json [] (Raised "400 Bad Request")).
    reflexivity.
  - apply (download_selected_raises Cases.to_excel_fails Sample.w
             Sample.req_rows [] (Raised "No module named 'xlsxwriter'")).
    + reflexivity.
    + eexists. split; [reflexivity|discriminate].
    + reflexivity.
Defined.
